(** * QR bot: dialogue controller, field validators and payload encoders

    A shallow embedding of the Python sources
      - [qr_generator/utils.py]      (class [ValidationUtils]),
      - [qr_generator/templates.py]  (class [DataTemplates]),
      - [bot.py]                     (classes [Localization] and [QRBot]),
    followed by the properties of the specification checked against it.

    Conventions.
      - A Python [str] is a [string]; one [ascii] stands for one code point
        in the range U+0000..U+00FF, so [String.length] is Python's [len].
        Message literals of the source that contain characters outside that
        range are kept as their UTF-8 bytes: they are only sent, never
        inspected.
      - A Python [dict] with string or integer keys is a [gmap].
      - Handlers run in a small monad threading [context.user_data] and the
        list of messages sent so far, with Python exceptions as a result. *)

From Stdlib Require Import ZArith QArith String Ascii List Bool Lia.
From stdpp Require Import base option gmap strings list.
Import ListNotations.

Close Scope Q_scope.
Local Open Scope string_scope.
Local Open Scope Z_scope.

(** ** Characters and the [str] methods used by the sources *)

Module Py.

Definition ord (c : ascii) : Z := Z.of_N (N_of_ascii c).

Definition between (lo hi : Z) (c : ascii) : bool :=
  (lo <=? ord c) && (ord c <=? hi).

Definition is_char (x : ascii) (c : ascii) : bool := Ascii.eqb x c.
Arguments is_char : simpl never.

(** [str.isspace] on one code point below 256. *)
Definition isspace (c : ascii) : bool :=
  between 9 13 c || between 28 32 c || (ord c =? 133) || (ord c =? 160).

(** [str.isdigit] on one code point below 256: the ASCII digits and the
    superscripts two, three and one. *)
Definition isdigit (c : ascii) : bool :=
  between 48 57 c || (ord c =? 178) || (ord c =? 179) || (ord c =? 185).

(** [0-9] of a regular expression, and the digits [float] and [int] read. *)
Definition is_09 (c : ascii) : bool := between 48 57 c.

Definition is_az (c : ascii) : bool := between 97 122 c.
Definition is_AZ (c : ascii) : bool := between 65 90 c.
Definition is_alpha (c : ascii) : bool := is_az c || is_AZ c.
Definition is_alnum (c : ascii) : bool := is_alpha c || is_09 c.

(** [str.lower] on one code point below 256. *)
Definition lower_char (c : ascii) : ascii :=
  if is_AZ c || (between 192 222 c && negb (ord c =? 215))
  then ascii_of_N (Z.to_N (ord c + 32)) else c.

Definition chars (s : string) : list ascii := list_ascii_of_string s.
Definition str (l : list ascii) : string := string_of_list_ascii l.

(** [''.join(c for c in s if p(c))] *)
Definition join_if (p : ascii -> bool) (s : string) : string :=
  str (List.filter p (chars s)).

Definition lower (s : string) : string := str (List.map lower_char (chars s)).

(** [s.replace(c, '')] for a one-character [c]. *)
Definition remove_char (c : ascii) (s : string) : string :=
  join_if (fun x => negb (is_char c x)) s.

Fixpoint lstrip (l : list ascii) : list ascii :=
  match l with
  | c :: l' => if isspace c then lstrip l' else l
  | [] => []
  end.

Definition strip (s : string) : string :=
  str (rev (lstrip (rev (lstrip (chars s))))).

(** Truth value of a [str]: non-empty. *)
Definition truthy (s : string) : bool := negb (String.eqb s "").

Definition startswith (p s : string) : bool := String.prefix p s.

Definition len (s : string) : Z := Z.of_nat (String.length s).

End Py.

(** ** Regular expressions

    The patterns of [ValidationUtils] use character classes, concatenation,
    alternation, optional parts, bounded and unbounded repetition and the
    anchors [^] and [$].  Matching is by derivatives; [re.match] with a
    pattern that ends in [$] succeeds when the whole subject, or the subject
    without one final newline, belongs to the language. *)

Module Re.

Inductive regex : Type :=
| Void
| Eps
| Cls (p : ascii -> bool)
| Cat (r1 r2 : regex)
| Alt (r1 r2 : regex)
| Star (r : regex).

Definition cat (r1 r2 : regex) : regex :=
  match r1, r2 with
  | Void, _ => Void
  | _, Void => Void
  | Eps, _ => r2
  | _, Eps => r1
  | _, _ => Cat r1 r2
  end.

Definition alt (r1 r2 : regex) : regex :=
  match r1, r2 with
  | Void, _ => r2
  | _, Void => r1
  | _, _ => Alt r1 r2
  end.

Fixpoint nullable (r : regex) : bool :=
  match r with
  | Void => false
  | Eps => true
  | Cls _ => false
  | Cat r1 r2 => nullable r1 && nullable r2
  | Alt r1 r2 => nullable r1 || nullable r2
  | Star _ => true
  end.

Fixpoint deriv (c : ascii) (r : regex) : regex :=
  match r with
  | Void => Void
  | Eps => Void
  | Cls p => if p c then Eps else Void
  | Cat r1 r2 =>
      if nullable r1 then alt (cat (deriv c r1) r2) (deriv c r2)
      else cat (deriv c r1) r2
  | Alt r1 r2 => alt (deriv c r1) (deriv c r2)
  | Star r' => cat (deriv c r') (Star r')
  end.

Fixpoint matches (r : regex) (s : list ascii) : bool :=
  match s with
  | [] => nullable r
  | c :: s' => matches (deriv c r) s'
  end.

(** Derived forms. *)
Definition Chr (c : ascii) : regex := Cls (Py.is_char c).
Definition Opt (r : regex) : regex := Alt Eps r.
Definition Plus (r : regex) : regex := Cat r (Star r).

(** [r{n}] *)
Fixpoint Rep (n : nat) (r : regex) : regex :=
  match n with
  | O => Eps
  | S n' => Cat r (Rep n' r)
  end.

(** [r{0,n}] *)
Fixpoint Upto (n : nat) (r : regex) : regex :=
  match n with
  | O => Eps
  | S n' => Opt (Cat r (Upto n' r))
  end.

(** [r{m,n}] and [r{m,}] *)
Definition Range (m n : nat) (r : regex) : regex := Cat (Rep m r) (Upto (n - m) r).
Definition AtLeast (m : nat) (r : regex) : regex := Cat (Rep m r) (Star r).

(** A literal, compared character by character. *)
Fixpoint Lit (l : list ascii) : regex :=
  match l with
  | [] => Eps
  | c :: l' => Cat (Chr c) (Lit l')
  end.

(** A literal under [re.IGNORECASE]. *)
Fixpoint LitI (l : list ascii) : regex :=
  match l with
  | [] => Eps
  | c :: l' =>
      Cat (Cls (fun x => Py.is_char (Py.lower_char c) (Py.lower_char x))) (LitI l')
  end.

Definition newline : ascii := ascii_of_N 10.

(** [.] without [re.DOTALL] *)
Definition Dot : regex := Cls (fun c => negb (Py.is_char newline c)).

(** [bool(re.match('^' r '$', s))] *)
Definition match_dollar (r : regex) (s : string) : bool :=
  let l := Py.chars s in
  matches r l ||
  match rev l with
  | c :: l' => Py.is_char newline c && matches r (rev l')
  | [] => false
  end.

(** The language of a regular expression. *)
Inductive lang : regex -> list ascii -> Prop :=
| lang_eps : lang Eps []
| lang_cls p c : p c = true -> lang (Cls p) [c]
| lang_cat r1 r2 s1 s2 : lang r1 s1 -> lang r2 s2 -> lang (Cat r1 r2) (s1 ++ s2)
| lang_alt_l r1 r2 s : lang r1 s -> lang (Alt r1 r2) s
| lang_alt_r r1 r2 s : lang r2 s -> lang (Alt r1 r2) s
| lang_star_nil r : lang (Star r) []
| lang_star_cons r s1 s2 : lang r s1 -> lang (Star r) s2 -> lang (Star r) (s1 ++ s2).

End Re.

(** ** The built-in [float] applied to a [str]

    [float(s)] turns non-ASCII white space into a blank, removes the
    underscores that stand between two digits, strips ASCII white space at
    both ends and reads a decimal literal or one of [inf], [infinity] and
    [nan], with an optional sign; the decimal value is rounded to the nearest
    binary64 number, ties to even, and overflows to an infinity.  A finite
    result is kept as the exact rational it denotes.  The limits of the
    underlying conversion that bind only on literals of more than 10^9
    characters are left out. *)

Module PyFloat.

Inductive t : Type :=
| Nan
| Inf (neg : bool)
| Fin (q : Q).

(** Nearest integer to [a / b], ties to even, for [0 <= a] and [0 < b]. *)
Definition rne (a b : Z) : Z :=
  let q := a / b in
  let r := a mod b in
  if 2 * r <? b then q
  else if b <? 2 * r then q + 1
  else if Z.even q then q else q + 1.

(** [floor (log2 (a / b))] for [0 < a] and [0 < b]. *)
Definition ilog2 (a b : Z) : Z :=
  let l := Z.log2 a - Z.log2 b in
  if (if 0 <=? l then b * 2 ^ l <=? a else b <=? a * 2 ^ (- l)) then l else l - 1.

(** Nearest integer to [(a / b) / 2^e]. *)
Definition scaled (a b e : Z) : Z :=
  if 0 <=? e then rne a (b * 2 ^ e) else rne (a * 2 ^ (- e)) b.

Definition dyadic (neg : bool) (n e : Z) : Q :=
  let m := if neg then - n else n in
  if 0 <=? e then inject_Z (m * 2 ^ e) else Qmake m (Z.to_pos (2 ^ (- e))).

(** The binary64 number nearest to [(-1)^neg * a / b], for [0 <= a], [0 < b]:
    53 significant bits, least exponent -1074, overflow from 2^1024 on. *)
Definition round (neg : bool) (a b : Z) : t :=
  if a =? 0 then Fin (inject_Z 0)
  else
    let e := Z.max (ilog2 a b - 52) (-1074) in
    let n := scaled a b e in
    if (971 <? e) || ((e =? 971) && (2 ^ 53 <=? n)) then Inf neg
    else Fin (dyadic neg n e).

(** Value of [m * 10^k] as a float. *)
Definition of_decimal (neg : bool) (m k : Z) : t :=
  if 0 <=? k then round neg (m * 10 ^ k) 1 else round neg m (10 ^ (- k)).

Fixpoint span (p : ascii -> bool) (l : list ascii) : list ascii * list ascii :=
  match l with
  | c :: l' =>
      if p c then let '(a, b) := span p l' in (c :: a, b) else ([], l)
  | [] => ([], [])
  end.

Definition digits_val (l : list ascii) : Z :=
  fold_left (fun acc c => 10 * acc + (Py.ord c - 48)) l 0.

Definition sign (l : list ascii) : bool * list ascii :=
  match l with
  | c :: l' =>
      if Py.is_char "-" c then (true, l')
      else if Py.is_char "+" c then (false, l')
      else (false, l)
  | [] => (false, [])
  end.

(** The exponent part: [e] or [E], an optional sign and at least one digit;
    anything else after the mantissa is left unread. *)
Definition exponent (l : list ascii) : Z * list ascii :=
  match l with
  | c :: l' =>
      if Py.is_char "e" c || Py.is_char "E" c then
        let '(neg, l1) := sign l' in
        let '(ds, rest) := span Py.is_09 l1 in
        match ds with
        | [] => (0, l)
        | _ => ((if neg then - digits_val ds else digits_val ds), rest)
        end
      else (0, l)
  | [] => (0, [])
  end.

(** The decimal literal at the head of [l] and what follows it; [None] when
    no digit is found. *)
Definition strtod (l : list ascii) : option (t * list ascii) :=
  let '(neg, l1) := sign l in
  let '(ip, l2) := span Py.is_09 l1 in
  let '(fp, l3) :=
    match l2 with
    | c :: l2' => if Py.is_char "." c then span Py.is_09 l2' else ([], l2)
    | [] => ([], [])
    end in
  match (ip ++ fp)%list with
  | [] => None
  | ds =>
      let '(e, rest) := exponent l3 in
      Some (of_decimal neg (digits_val ds) (e - Z.of_nat (length fp)), rest)
  end.

Definition ascii_lower (c : ascii) : ascii :=
  if Py.is_AZ c then ascii_of_N (Z.to_N (Py.ord c + 32)) else c.

Definition inf_or_nan (l : list ascii) : option t :=
  let '(neg, l1) := sign l in
  let w := Py.str (List.map ascii_lower l1) in
  if String.eqb w "inf" || String.eqb w "infinity" then Some (Inf neg)
  else if String.eqb w "nan" then Some Nan
  else None.

(** White space other than ASCII becomes a blank; any other character from
    127 on becomes a question mark, which no literal contains. *)
Definition transform (c : ascii) : ascii :=
  if Py.ord c <? 127 then c
  else if Py.isspace c then " "%char else "?"%char.

(** An underscore is allowed only between two digits, and is dropped. *)
Fixpoint underscores (prev : option ascii) (l : list ascii) : option (list ascii) :=
  let digit o := match o with Some d => Py.is_09 d | None => false end in
  let under o := match o with Some d => Py.is_char "_" d | None => false end in
  match l with
  | [] => if under prev then None else Some []
  | c :: l' =>
      if Py.is_char "_" c then
        if digit prev then underscores (Some c) l' else None
      else if under prev && negb (Py.is_09 c) then None
      else option_map (cons c) (underscores (Some c) l')
  end.

(** White space of the C locale. *)
Definition c_isspace (c : ascii) : bool :=
  Py.between 9 13 c || (Py.ord c =? 32).

Fixpoint c_lstrip (l : list ascii) : list ascii :=
  match l with
  | c :: l' => if c_isspace c then c_lstrip l' else l
  | [] => []
  end.

Definition float (s : string) : option t :=
  match underscores None (List.map transform (Py.chars s)) with
  | None => None
  | Some l =>
      let l' := rev (c_lstrip (rev (c_lstrip l))) in
      match strtod l' with
      | Some (v, []) => Some v
      | Some (_, _ :: _) => None
      | None => inf_or_nan l'
      end
  end.

(** [i <= v] and [v <= i] for an [int] [i] and a [float] [v]; comparisons
    with a [nan] are false. *)
Definition int_le (i : Z) (v : t) : bool :=
  match v with
  | Nan => false
  | Inf neg => negb neg
  | Fin q => Qle_bool (inject_Z i) q
  end.

Definition le_int (v : t) (i : Z) : bool :=
  match v with
  | Nan => false
  | Inf neg => neg
  | Fin q => Qle_bool q (inject_Z i)
  end.

(** [v >= i] *)
Definition ge_int (v : t) (i : Z) : bool := int_le i v.

End PyFloat.

(** ** [datetime.strptime] for the two formats of the sources

    The format is compiled to a regular expression, one group per directive,
    which must match the whole subject; the fields read must then form a
    date of the proleptic Gregorian calendar with a year from 1 to 9999. *)

Module Strptime.
Import Re.

Definition d09 : regex := Cls Py.is_09.
Definition d19 : regex := Cls (Py.between 49 57).

(** [%Y]: "\d\d\d\d" *)
Definition re_Y : regex := Rep 4 d09.
(** [%m]: "1[0-2]|0[1-9]|[1-9]" *)
Definition re_m : regex :=
  Alt (Cat (Chr "1") (Cls (Py.between 48 50))) (Alt (Cat (Chr "0") d19) d19).
(** [%d]: "3[0-1]|[1-2]\d|0[1-9]|[1-9]| [1-9]" *)
Definition re_d : regex :=
  Alt (Cat (Chr "3") (Cls (Py.between 48 49)))
 (Alt (Cat (Cls (Py.between 49 50)) d09)
 (Alt (Cat (Chr "0") d19)
 (Alt d19 (Cat (Chr " ") d19)))).
(** [%H]: "2[0-3]|[0-1]\d|\d" *)
Definition re_H : regex :=
  Alt (Cat (Chr "2") (Cls (Py.between 48 51)))
 (Alt (Cat (Cls (Py.between 48 49)) d09) d09).
(** [%M]: "[0-5]\d|\d" *)
Definition re_M : regex := Alt (Cat (Cls (Py.between 48 53)) d09) d09.

Definition re_Ymd : regex :=
  Cat re_Y (Cat (Chr "-") (Cat re_m (Cat (Chr "-") re_d))).
Definition re_HM : regex := Cat re_H (Cat (Chr ":") re_M).

Fixpoint split_on (c : ascii) (l : list ascii) : list (list ascii) :=
  match l with
  | [] => [[]]
  | x :: l' =>
      match split_on c l' with
      | w :: ws => if Py.is_char c x then [] :: w :: ws else (x :: w) :: ws
      | [] => [[x]]
      end
  end.

(** [int] of a group: digits after optional blanks. *)
Definition int (l : list ascii) : Z :=
  PyFloat.digits_val (List.filter Py.is_09 l).

Definition is_leap (y : Z) : bool :=
  (y mod 4 =? 0) && (negb (y mod 100 =? 0) || (y mod 400 =? 0)).

Definition days_in_month (y m : Z) : Z :=
  if m =? 2 then (if is_leap y then 29 else 28)
  else if (m =? 4) || (m =? 6) || (m =? 9) || (m =? 11) then 30
  else 31.

(** [datetime.strptime(s, '%Y-%m-%d')] returns rather than raising. *)
Definition parses_Ymd (s : string) : bool :=
  matches re_Ymd (Py.chars s) &&
  match split_on "-" (Py.chars s) with
  | [y; m; d] =>
      (1 <=? int y) && (1 <=? int m) && (int m <=? 12) &&
      (1 <=? int d) && (int d <=? days_in_month (int y) (int m))
  | _ => false
  end.

(** [datetime.strptime(s, '%H:%M')] returns rather than raising. *)
Definition parses_HM (s : string) : bool := matches re_HM (Py.chars s).

End Strptime.

(** ** [qr_generator/utils.py]: class [ValidationUtils] *)

Module ValidationUtils.
Import Re.

Definition alnum : regex := Cls Py.is_alnum.
Definition alnum_hyphen : regex := Cls (fun c => Py.is_alnum c || Py.is_char "-" c).

(** The pattern of [validate_url], compiled with [re.IGNORECASE]:
    "^(https?://)?", then "([A-Za-z0-9]([A-Za-z0-9-]{0,61}[A-Za-z0-9])?\.)+",
    then "[A-Za-z]{2,6}", then "(:[0-9]{1,5})?", then an optional group made
    of a slash and any characters but newlines, then "$". *)
Definition url_pattern : regex :=
  Cat (Opt (Cat (LitI (Py.chars "http"))
           (Cat (Opt (LitI (Py.chars "s"))) (LitI (Py.chars "://")))))
 (Cat (Plus (Cat alnum
            (Cat (Opt (Cat (Upto 61 alnum_hyphen) alnum)) (Chr "."))))
 (Cat (Range 2 6 (Cls Py.is_alpha))
 (Cat (Opt (Cat (Chr ":") (Range 1 5 (Cls Py.is_09))))
      (Opt (Cat (Chr "/") (Star Dot)))))).

Definition validate_url (url : string) : bool := match_dollar url_pattern url.

Definition email_local (c : ascii) : bool :=
  Py.is_alnum c || Py.is_char "." c || Py.is_char "_" c || Py.is_char "%" c
  || Py.is_char "+" c || Py.is_char "-" c.
Definition email_domain (c : ascii) : bool :=
  Py.is_alnum c || Py.is_char "." c || Py.is_char "-" c.

(** The pattern "^[a-zA-Z0-9._%+-]+@[a-zA-Z0-9.-]+\.[a-zA-Z]{2,}$". *)
Definition email_pattern : regex :=
  Cat (Plus (Cls email_local))
 (Cat (Chr "@")
 (Cat (Plus (Cls email_domain))
 (Cat (Chr ".") (AtLeast 2 (Cls Py.is_alpha))))).

Definition validate_email (email : string) : bool := match_dollar email_pattern email.

(** The class "[0-9\s\-\(\)]"; "\s" is the white space of [str.isspace]. *)
Definition phone_char (c : ascii) : bool :=
  Py.is_09 c || Py.isspace c || Py.is_char "-" c || Py.is_char "(" c
  || Py.is_char ")" c.

(** The pattern "^[\+]?[0-9\s\-\(\)]{10,}$". *)
Definition phone_pattern : regex :=
  Cat (Opt (Chr "+")) (AtLeast 10 (Cls phone_char)).

Definition validate_phone (phone : string) : bool := match_dollar phone_pattern phone.

Definition hex_digit (c : ascii) : bool :=
  Py.between 65 70 c || Py.between 97 102 c || Py.is_09 c.

(** The pattern "^#([A-Fa-f0-9]{6}|[A-Fa-f0-9]{3})$". *)
Definition hex_color_pattern : regex :=
  Cat (Chr "#") (Alt (Rep 6 (Cls hex_digit)) (Rep 3 (Cls hex_digit))).

Definition validate_hex_color (color : string) : bool :=
  match_dollar hex_color_pattern color.

Definition validate_date (date_str : string) : bool := Strptime.parses_Ymd date_str.

Definition validate_time (time_str : string) : bool := Strptime.parses_HM time_str.

Definition validate_coordinate (coord : string) : bool :=
  match PyFloat.float coord with
  | Some value => PyFloat.int_le (-180) value && PyFloat.le_int value 180
  | None => false
  end.

Definition validate_number (number : string) : bool :=
  match PyFloat.float number with
  | Some _ => true
  | None => false
  end.

Definition validate_amount (amount : string) : bool :=
  match PyFloat.float amount with
  | Some value => PyFloat.ge_int value 0
  | None => false
  end.

End ValidationUtils.

(** ** [qr_generator/templates.py]: class [DataTemplates] *)

Module DataTemplates.

Definition nl : string := String Re.newline "".

Definition create_url (url : string) : string :=
  if negb (Py.startswith "http://" url || Py.startswith "https://" url)
  then "https://" ++ url else url.

Definition create_text (text : string) : string := text.

Definition create_email (address : string) : string := "mailto:" ++ address.

(** [''.join(c for c in phone if c.isdigit() or c == '+')] *)
Definition clean_phone (phone : string) : string :=
  Py.join_if (fun c => Py.isdigit c || Py.is_char "+" c) phone.

Definition create_phone (phone : string) : string := "tel:" ++ clean_phone phone.

Definition create_wifi (ssid password encryption : string) : string :=
  if String.eqb encryption "nopass" || negb (Py.truthy password)
  then "WIFI:T:nopass;S:" ++ ssid ++ ";;"
  else "WIFI:T:" ++ encryption ++ ";S:" ++ ssid ++ ";P:" ++ password ++ ";;".

Definition create_location (latitude longitude : string) : string :=
  "geo:" ++ latitude ++ "," ++ longitude.

Definition create_sms (phone text : string) : string :=
  let clean_phone := clean_phone phone in
  if Py.truthy text then "smsto:" ++ clean_phone ++ ":" ++ text
  else "sms:" ++ clean_phone.

Definition create_whatsapp (phone text : string) : string :=
  let clean_phone := clean_phone phone in
  if Py.truthy text then
    let clean_phone := Py.remove_char "+" clean_phone in
    "https://wa.me/" ++ clean_phone ++ "?text=" ++ text
  else
    let clean_phone := Py.remove_char "+" clean_phone in
    "https://wa.me/" ++ clean_phone.

(** The card handed to the [vobject] library: [n] and [fn] always, the
    other lines only for a non-empty argument. *)
Record vcard : Type := {
  n_family : string;
  n_given : string;
  fn : string;
  org : option (list string);
  tel_work : option string;
  email_work : option string;
  url : option string
}.

Definition nonempty (s : string) : option string :=
  if Py.truthy s then Some s else None.

Section VObject.
(** [vobject] is a library outside the repository: [serialize] is its
    rendering of a card, [None] when it raises. *)
Variable serialize : vcard -> option string.

Definition create_vcard (name company phone email website : string) : string :=
  let card :=
    {| n_family := name; n_given := name; fn := name;
       org := option_map (fun c => [c]) (nonempty company);
       tel_work := nonempty phone;
       email_work := nonempty email;
       url := nonempty website |} in
  match serialize card with
  | Some text => text
  | None =>
      let contact_info := "Name: " ++ name in
      let contact_info :=
        if Py.truthy company then contact_info ++ nl ++ "Company: " ++ company
        else contact_info in
      let contact_info :=
        if Py.truthy phone then contact_info ++ nl ++ "Phone: " ++ phone
        else contact_info in
      let contact_info :=
        if Py.truthy email then contact_info ++ nl ++ "Email: " ++ email
        else contact_info in
      let contact_info :=
        if Py.truthy website then contact_info ++ nl ++ "Website: " ++ website
        else contact_info in
      contact_info
  end.
End VObject.

(** The continuation lines of the template literal keep the indentation of
    the source, 24 blanks.  No operation of the [try] block raises on
    [str] arguments, so its [except] branch is not reached. *)
Definition indent : string := "                        ".

Definition create_event (title date time location : string) : string :=
  let date_str := Py.remove_char "-" date in
  let datetime_str :=
    if Py.truthy time then date_str ++ "T" ++ Py.remove_char ":" time ++ "00"
    else date_str in
  "BEGIN:VCALENDAR" ++ nl ++
  indent ++ "VERSION:2.0" ++ nl ++
  indent ++ "BEGIN:VEVENT" ++ nl ++
  indent ++ "SUMMARY:" ++ title ++ nl ++
  indent ++ "DTSTART:" ++ datetime_str ++ nl ++
  indent ++ "LOCATION:" ++ location ++ nl ++
  indent ++ "END:VEVENT" ++ nl ++
  indent ++ "END:VCALENDAR".

Definition create_paypal (email amount : string) : string :=
  if Py.truthy amount then "https://paypal.me/" ++ email ++ "/" ++ amount
  else "https://paypal.me/" ++ email.

(** A dictionary display: a later entry replaces an earlier one with the
    same key. *)
Definition dict {K} `{Countable K} {V} (l : list (K * V)) : gmap K V :=
  list_to_map (rev l).

Definition create_crypto (address currency : string) : string :=
  let currency_map : gmap string string :=
    dict [("BTC", "bitcoin"); ("ETH", "ethereum"); ("USDT", "tether")] in
  let crypto_prefix := default (Py.lower currency) (currency_map !! currency) in
  crypto_prefix ++ ":" ++ address.

Definition create_youtube (url : string) : string :=
  if negb (Py.startswith "http://" url || Py.startswith "https://" url)
  then "https://" ++ url else url.

Definition create_social (username platform : string) : string :=
  let platforms : gmap string string :=
    dict [("instagram", "https://instagram.com/" ++ username);
          ("tiktok", "https://tiktok.com/@" ++ username);
          ("facebook", "https://facebook.com/" ++ username);
          ("linkedin", "https://linkedin.com/in/" ++ username);
          ("twitter", "https://twitter.com/" ++ username)] in
  default ("https://" ++ platform ++ ".com/" ++ username) (platforms !! platform).

End DataTemplates.

(** ** [bot.py]: class [Localization] *)

Definition DEFAULT_LANGUAGE : string := "en".

Module Localization.

(** The catalogue read from the locale files, which are not part of the
    sources: [translations] by language code, and [available_languages] in
    the order the files were read. *)
Record t : Type := {
  translations : gmap string (gmap string string);
  available_languages : list (string * string)
}.

Definition get_text (self : t) (lang_code key : string) : string :=
  let lang_code :=
    if bool_decide (is_Some (translations self !! lang_code)) then lang_code
    else DEFAULT_LANGUAGE in
  match translations self !! lang_code with
  | Some d => default ("[" ++ key ++ "]") (d !! key)
  | None => "[" ++ key ++ "]"
  end.

Definition get_available_languages (self : t) : list (string * string) :=
  available_languages self.

End Localization.

(** ** [bot.py]: class [QRBot] *)

Module QRBot.

(** [context.user_data['multi_step_data']]: the keys [type], [step] and
    [inputs] of the dictionary built by [handle_data_type_selection]. *)
Record multi_step : Type := {
  md_type : string;
  md_step : Z;
  md_inputs : gmap Z string
}.

(** [context.user_data]: the keys the bot assigns.  ([qr_data], which
    [create_qr] pops, is never assigned.)  [wifi_data] is a dictionary from
    [step], [ssid], [encryption] and [password] to strings. *)
Record user_data : Type := {
  language : option string;
  current_data_type : option string;
  wifi_data : option (gmap string string);
  multi_step_data : option multi_step
}.

Definition empty_user_data : user_data :=
  {| language := None; current_data_type := None;
     wifi_data := None; multi_step_data := None |}.

(** The user data of a user with no operation under way. *)
Definition idle (lang : option string) : user_data :=
  {| language := lang; current_data_type := None;
     wifi_data := None; multi_step_data := None |}.

Inductive keyboard : Type :=
| ReplyKeyboardMarkup (rows : list (list string))
| ReplyKeyboardRemove.

(** What a handler asks of the transport and of the image generator, in
    order.  [generate_qr data] is the call [self.qr_generator.generate_qr
    (data)]; [reply_photo] sends the image that call returned, and
    [delete_message] removes the notice sent before it. *)
Inductive action : Type :=
| reply_text (text : string) (reply_markup : option keyboard)
| reply_markdown (text : string) (reply_markup : option keyboard)
| send_chat_action (kind : string)
| generate_qr (data : string)
| reply_photo (caption : string)
| delete_message.

(** A handler either returns or raises; either way it may have changed
    [user_data] and sent messages.  Calls of the transport are taken to
    return. *)
Inductive outcome (A : Type) : Type :=
| Return (a : A)
| KeyError (key : string).
Arguments Return {A} a.
Arguments KeyError {A} key.

Definition M (A : Type) : Type := user_data -> outcome A * user_data * list action.

Definition ret {A} (a : A) : M A := fun u => (Return a, u, []).

Definition bind {A B} (m : M A) (k : A -> M B) : M B :=
  fun u =>
    match m u with
    | (Return a, u', out) =>
        let '(r, u'', out') := k a u' in (r, u'', (out ++ out')%list)
    | (KeyError key, u', out) => (KeyError key, u', out)
    end.

(** The parts of a run: the user data left and the actions asked for. *)
Definition state_of {A} (x : outcome A * user_data * list action) : user_data := snd (fst x).
Definition sent_of {A} (x : outcome A * user_data * list action) : list action := snd x.

(** The same run with [out] sent before it. *)
Definition after {A} (out : list action) (x : outcome A * user_data * list action)
    : outcome A * user_data * list action :=
  (fst (fst x), snd (fst x), (out ++ snd x)%list).

Definition get : M user_data := fun u => (Return u, u, []).
Definition modify (f : user_data -> user_data) : M unit := fun u => (Return tt, f u, []).
Definition send (a : action) : M unit := fun u => (Return tt, u, [a]).
Definition raise {A} (key : string) : M A := fun u => (KeyError key, u, []).

Notation "x <- m ;; k" := (bind m (fun x => k))
  (at level 62, m at next level, right associativity).
Notation "m ;;; k" := (bind m (fun _ => k))
  (at level 62, right associativity).

(** [context.user_data.pop(key, None)] for each key of the record. *)
Definition pop_current_data_type : M unit :=
  modify (fun u => {| language := language u; current_data_type := None;
                      wifi_data := wifi_data u; multi_step_data := multi_step_data u |}).
Definition pop_wifi_data : M unit :=
  modify (fun u => {| language := language u; current_data_type := current_data_type u;
                      wifi_data := None; multi_step_data := multi_step_data u |}).
Definition pop_multi_step_data : M unit :=
  modify (fun u => {| language := language u; current_data_type := current_data_type u;
                      wifi_data := wifi_data u; multi_step_data := None |}).

Definition set_language (l : string) : M unit :=
  modify (fun u => {| language := Some l; current_data_type := current_data_type u;
                      wifi_data := wifi_data u; multi_step_data := multi_step_data u |}).
Definition set_current_data_type (d : string) : M unit :=
  modify (fun u => {| language := language u; current_data_type := Some d;
                      wifi_data := wifi_data u; multi_step_data := multi_step_data u |}).
Definition set_wifi_data (d : gmap string string) : M unit :=
  modify (fun u => {| language := language u; current_data_type := current_data_type u;
                      wifi_data := Some d; multi_step_data := multi_step_data u |}).
Definition set_multi_step_data (d : multi_step) : M unit :=
  modify (fun u => {| language := language u; current_data_type := current_data_type u;
                      wifi_data := wifi_data u; multi_step_data := Some d |}).

(** An assignment through the alias [wifi_data = context.user_data.get
    ('wifi_data', {})]: it reaches the stored dictionary when there is one
    and is lost on the fresh default otherwise. *)
Definition wifi_assign (key value : string) : M unit :=
  u <- get ;;
  match wifi_data u with
  | Some d => set_wifi_data (<[key := value]> d)
  | None => ret tt
  end.

(** [multi_data['inputs'][step] = value] through the alias [multi_data =
    context.user_data.get('multi_step_data', {})]: the fresh default has no
    key [inputs]. *)
Definition inputs_assign (step : Z) (value : string) : M unit :=
  u <- get ;;
  match multi_step_data u with
  | Some d =>
      set_multi_step_data
        {| md_type := md_type d; md_step := md_step d;
           md_inputs := <[step := value]> (md_inputs d) |}
  | None => raise "inputs"
  end.

(** [multi_data['step'] = step] through the same alias. *)
Definition step_assign (step : Z) : M unit :=
  u <- get ;;
  match multi_step_data u with
  | Some d =>
      set_multi_step_data
        {| md_type := md_type d; md_step := step; md_inputs := md_inputs d |}
  | None => ret tt
  end.

Definition elem (x : string) (l : list string) : bool := existsb (String.eqb x) l.

Fixpoint rows_of_two (l : list string) : list (list string) :=
  match l with
  | a :: b :: l' => [a; b] :: rows_of_two l'
  | [a] => [[a]]
  | [] => []
  end.

Definition is_type (data_type : option string) (name : string) : bool :=
  match data_type with
  | Some d => String.eqb d name
  | None => false
  end.

(** [data_type in table and step in table[data_type]], with the entry. *)
Definition lookup2 {V} (table : gmap string (gmap Z V))
    (data_type : option string) (step : Z) : option V :=
  match data_type with
  | Some d =>
      match table !! d with
      | Some entries => entries !! step
      | None => None
      end
  | None => None
  end.

Section Handlers.

(** The collaborators of the controller: the text catalogue, the [vobject]
    library and the image generator.  [qr_error data] is [None] when
    [QRGenerator.generate_qr data] returns an image and [Some e] when it
    raises an exception that prints as [e]. *)
Variable loc : Localization.t.
Variable vobject_serialize : DataTemplates.vcard -> option string.
Variable qr_error : string -> option string.

Definition T (lang key : string) : string := Localization.get_text loc lang key.

Definition get_user_lang : M string :=
  u <- get ;; ret (default DEFAULT_LANGUAGE (language u)).

Definition create_main_menu_keyboard (lang : string) : keyboard :=
  ReplyKeyboardMarkup [[T lang "create_qr"]; [T lang "help"]; [T lang "language"]].

Definition data_type_labels (lang : string) : list string :=
  [T lang "data_type_url"; T lang "data_type_text"; T lang "data_type_email";
   T lang "data_type_phone"; T lang "data_type_wifi"; T lang "data_type_location";
   T lang "data_type_sms"; T lang "data_type_whatsapp"; T lang "data_type_vcard";
   T lang "data_type_event"; T lang "data_type_paypal"; T lang "data_type_crypto";
   T lang "data_type_youtube"; T lang "data_type_social"].

Definition create_data_type_keyboard (lang : string) : keyboard :=
  ReplyKeyboardMarkup (rows_of_two (data_type_labels lang) ++ [[T lang "back"]])%list.

Definition create_cancel_keyboard (lang : string) : keyboard :=
  ReplyKeyboardMarkup [[T lang "cancel"]].

Definition create_language_keyboard : keyboard :=
  ReplyKeyboardMarkup
    (rows_of_two (List.map snd (Localization.get_available_languages loc))).

Definition encryption_labels (lang : string) : list string :=
  [T lang "encryption_wpa"; T lang "encryption_wep"; T lang "encryption_none"].

Definition create_encryption_keyboard (lang : string) : keyboard :=
  ReplyKeyboardMarkup
    [[T lang "encryption_wpa"; T lang "encryption_wep"];
     [T lang "encryption_none"]; [T lang "cancel"]].

Definition crypto_labels (lang : string) : list string :=
  [T lang "crypto_btc"; T lang "crypto_eth"; T lang "crypto_usdt"].

Definition create_crypto_keyboard (lang : string) : keyboard :=
  ReplyKeyboardMarkup
    [[T lang "crypto_btc"]; [T lang "crypto_eth"]; [T lang "crypto_usdt"];
     [T lang "back"]].

Definition social_labels (lang : string) : list string :=
  [T lang "social_instagram"; T lang "social_tiktok"; T lang "social_facebook";
   T lang "social_linkedin"; T lang "social_twitter"].

Definition create_social_keyboard (lang : string) : keyboard :=
  ReplyKeyboardMarkup
    [[T lang "social_instagram"; T lang "social_tiktok"];
     [T lang "social_facebook"; T lang "social_linkedin"];
     [T lang "social_twitter"]; [T lang "back"]].

Definition create_skip_keyboard (lang : string) : keyboard :=
  ReplyKeyboardMarkup [[T lang "skip"]; [T lang "cancel"]].

Definition reply_menu (lang text : string) : M unit :=
  send (reply_text text (Some (create_main_menu_keyboard lang))).

(** [not data or data.strip() == ""] *)
Definition blank (data : string) : bool :=
  negb (Py.truthy data) || String.eqb (Py.strip data) "".

Definition generate_and_send_qr (data : string) : M unit :=
  lang <- get_user_lang ;;
  if blank data then
    send (reply_text "❌ Ошибка: пустые данные для QR-кода" None)
  else
    send (send_chat_action "upload_photo") ;;;
    send (reply_text (T lang "generating_qr") None) ;;;
    send (generate_qr data) ;;;
    match qr_error data with
    | None => send (reply_photo (T lang "qr_ready"))
    | Some e => send (reply_text ("❌ Ошибка генерации QR-кода: " ++ e) None)
    end ;;;
    send delete_message.

Definition start : M unit :=
  lang <- get_user_lang ;; reply_menu lang (T lang "welcome").

Definition show_main_menu : M unit :=
  lang <- get_user_lang ;; reply_menu lang (T lang "main_menu").

Definition create_qr : M unit :=
  lang <- get_user_lang ;;
  pop_current_data_type ;;;
  pop_wifi_data ;;;
  pop_multi_step_data ;;;
  send (reply_text (T lang "select_data_type") (Some (create_data_type_keyboard lang))).

Definition help_command : M unit :=
  lang <- get_user_lang ;;
  send (reply_markdown (T lang "help_text") (Some (create_main_menu_keyboard lang))).

Definition language_command : M unit :=
  lang <- get_user_lang ;;
  send (reply_text (T lang "select_language") (Some create_language_keyboard)).

Definition new_qr : M unit := create_qr.

Definition cancel_operation : M unit :=
  lang <- get_user_lang ;;
  pop_current_data_type ;;;
  pop_wifi_data ;;;
  pop_multi_step_data ;;;
  reply_menu lang (T lang "operation_cancelled").

(** [context.user_data.clear()] *)
Definition cancel : M unit :=
  modify (fun _ => empty_user_data) ;;;
  send (reply_text "Operation cancelled." (Some ReplyKeyboardRemove)) ;;;
  start.

Definition finalize_wifi_qr : M unit :=
  u <- get ;;
  match wifi_data u with
  | None => raise "wifi_data"
  | Some wifi_data =>
      lang <- get_user_lang ;;
      match wifi_data !! "ssid" with
      | None => reply_menu lang "❌ Ошибка генерации WiFi данных"
      | Some ssid =>
          let qr_data :=
            DataTemplates.create_wifi ssid
              (default "" (wifi_data !! "password"))
              (default "WPA" (wifi_data !! "encryption")) in
          if negb (Py.truthy qr_data) then
            reply_menu lang "❌ Ошибка генерации WiFi данных"
          else
            generate_and_send_qr qr_data ;;;
            pop_wifi_data ;;;
            pop_current_data_type ;;;
            reply_menu lang (T lang "qr_ready")
      end
  end.

Definition handle_wifi_input (user_text : string) : M unit :=
  u <- get ;;
  match wifi_data u with
  | None => raise "wifi_data"
  | Some wifi_data =>
      let current_step := wifi_data !! "step" in
      lang <- get_user_lang ;;
      let cancel_text := T lang "cancel" in
      if String.eqb user_text cancel_text then
        pop_wifi_data ;;;
        pop_current_data_type ;;;
        reply_menu lang (T lang "operation_cancelled")
      else if is_type current_step "ssid" then
        wifi_assign "ssid" user_text ;;;
        wifi_assign "step" "encryption" ;;;
        send (reply_text (T lang "select_encryption")
                (Some (create_encryption_keyboard lang)))
      else if is_type current_step "password" then
        wifi_assign "password" user_text ;;;
        wifi_assign "step" "final" ;;;
        finalize_wifi_qr
      else ret tt
  end.

Definition handle_wifi_encryption (encryption_text : string) : M unit :=
  lang <- get_user_lang ;;
  let encryption_map : gmap string string :=
    DataTemplates.dict
      [(T lang "encryption_wpa", "WPA"); (T lang "encryption_wep", "WEP");
       (T lang "encryption_none", "nopass")] in
  let encryption := default "WPA" (encryption_map !! encryption_text) in
  wifi_assign "encryption" encryption ;;;
  if String.eqb encryption "nopass" then
    wifi_assign "step" "final" ;;;
    finalize_wifi_qr
  else
    wifi_assign "step" "password" ;;;
    send (reply_text (T lang "enter_wifi_password") (Some (create_cancel_keyboard lang))).

Definition prompts (lang : string) : gmap string (gmap Z string) :=
  DataTemplates.dict
    [("location", DataTemplates.dict
        [(1, T lang "enter_location_lat"); (2, T lang "enter_location_lon")]);
     ("sms", DataTemplates.dict
        [(1, T lang "enter_sms_phone"); (2, T lang "enter_sms_text")]);
     ("whatsapp", DataTemplates.dict
        [(1, T lang "enter_whatsapp_phone"); (2, T lang "enter_whatsapp_text")]);
     ("vcard", DataTemplates.dict
        [(1, T lang "enter_vcard_name"); (2, T lang "enter_vcard_company");
         (3, T lang "enter_vcard_phone"); (4, T lang "enter_vcard_email");
         (5, T lang "enter_vcard_website")]);
     ("event", DataTemplates.dict
        [(1, T lang "enter_event_title"); (2, T lang "enter_event_date");
         (3, T lang "enter_event_time"); (4, T lang "enter_event_location")]);
     ("paypal", DataTemplates.dict
        [(1, T lang "enter_paypal_email"); (2, T lang "enter_paypal_amount")])].

Definition ask_for_multi_step_input : M unit :=
  lang <- get_user_lang ;;
  u <- get ;;
  let multi_data := multi_step_data u in
  let data_type := option_map md_type multi_data in
  let step := default 1 (option_map md_step multi_data) in
  match lookup2 (prompts lang) data_type step with
  | Some prompt =>
      if (is_type data_type "vcard" || is_type data_type "event") && (2 <=? step) then
        send (reply_text (prompt ++ " " ++ T lang "optional")
                (Some (create_skip_keyboard lang)))
      else if is_type data_type "paypal" && (step =? 2) then
        send (reply_text (prompt ++ " " ++ T lang "optional")
                (Some (create_skip_keyboard lang)))
      else
        send (reply_text prompt (Some (create_cancel_keyboard lang)))
  | None =>
      if is_type data_type "crypto" && (step =? 1) then
        send (reply_text (T lang "enter_crypto_address") (Some (create_cancel_keyboard lang)))
      else if is_type data_type "crypto" && (step =? 2) then
        send (reply_text (T lang "enter_crypto_currency") (Some (create_crypto_keyboard lang)))
      else if is_type data_type "social" && (step =? 1) then
        send (reply_text (T lang "enter_social_username") (Some (create_cancel_keyboard lang)))
      else if is_type data_type "social" && (step =? 2) then
        send (reply_text (T lang "enter_social_platform") (Some (create_social_keyboard lang)))
      else ret tt
  end.

Definition validation_rules (lang : string)
    : gmap string (gmap Z (string * option string)) :=
  DataTemplates.dict
    [("location", DataTemplates.dict
        [(1, ("coordinate", Some (T lang "invalid_coordinate")));
         (2, ("coordinate", Some (T lang "invalid_coordinate")))]);
     ("sms", DataTemplates.dict
        [(1, ("phone", Some (T lang "invalid_phone"))); (2, ("text", None))]);
     ("whatsapp", DataTemplates.dict
        [(1, ("phone", Some (T lang "invalid_phone"))); (2, ("text", None))]);
     ("vcard", DataTemplates.dict
        [(1, ("required", Some "Имя обязательно")); (2, ("optional", None));
         (3, ("phone_optional", None)); (4, ("email_optional", None));
         (5, ("url_optional", None))]);
     ("event", DataTemplates.dict
        [(1, ("required", Some "Название обязательно"));
         (2, ("date", Some (T lang "invalid_date")));
         (3, ("time_optional", None)); (4, ("optional", None))]);
     ("paypal", DataTemplates.dict
        [(1, ("email", Some (T lang "invalid_email")));
         (2, ("amount_optional", None))]);
     ("crypto", DataTemplates.dict [(1, ("required", Some "Адрес обязателен"))]);
     ("social", DataTemplates.dict [(1, ("required", Some "Username обязателен"))])].

(** The branches that send [error_message] belong to rules that have one. *)
Definition validate_multi_step_input
    (user_input : string) (data_type : option string) (step : Z) : M bool :=
  lang <- get_user_lang ;;
  match lookup2 (validation_rules lang) data_type step with
  | Some (validation_type, error_message) =>
      let error := send (reply_text (default "" error_message) None) ;;; ret false in
      let stripped := Py.truthy (Py.strip user_input) in
      if String.eqb validation_type "required" && negb stripped then error
      else if String.eqb validation_type "phone"
              && negb (ValidationUtils.validate_phone user_input) then error
      else if String.eqb validation_type "phone_optional" && stripped
              && negb (ValidationUtils.validate_phone user_input) then
        send (reply_text (T lang "invalid_phone") None) ;;; ret false
      else if String.eqb validation_type "email"
              && negb (ValidationUtils.validate_email user_input) then error
      else if String.eqb validation_type "email_optional" && stripped
              && negb (ValidationUtils.validate_email user_input) then
        send (reply_text (T lang "invalid_email") None) ;;; ret false
      else if String.eqb validation_type "coordinate"
              && negb (ValidationUtils.validate_coordinate user_input) then error
      else if String.eqb validation_type "date"
              && negb (ValidationUtils.validate_date user_input) then error
      else if String.eqb validation_type "time_optional" && stripped
              && negb (ValidationUtils.validate_time user_input) then
        send (reply_text (T lang "invalid_time") None) ;;; ret false
      else if String.eqb validation_type "amount_optional" && stripped
              && negb (ValidationUtils.validate_amount user_input) then
        send (reply_text (T lang "invalid_number") None) ;;; ret false
      else if String.eqb validation_type "url_optional" && stripped
              && negb (ValidationUtils.validate_url user_input) then
        send (reply_text (T lang "invalid_url") None) ;;; ret false
      else ret true
  | None => ret true
  end.

(** [inputs[k]] raises when the key is missing and the [except] clause
    then makes the function return the empty string; [inputs.get(k, d)]
    does not raise. *)
Definition generate_multi_step_qr_data
    (data_type : option string) (inputs : gmap Z string) : string :=
  let get k d := default d (inputs !! k) in
  let item k (f : string -> string) :=
    match inputs !! k with Some v => f v | None => "" end in
  if is_type data_type "location" then
    item 1 (fun latitude => item 2 (fun longitude =>
      DataTemplates.create_location latitude longitude))
  else if is_type data_type "sms" then
    item 1 (fun phone => DataTemplates.create_sms phone (get 2 ""))
  else if is_type data_type "whatsapp" then
    item 1 (fun phone => DataTemplates.create_whatsapp phone (get 2 ""))
  else if is_type data_type "vcard" then
    item 1 (fun name =>
      DataTemplates.create_vcard vobject_serialize
        name (get 2 "") (get 3 "") (get 4 "") (get 5 ""))
  else if is_type data_type "event" then
    item 1 (fun title => item 2 (fun date =>
      DataTemplates.create_event title date (get 3 "") (get 4 "")))
  else if is_type data_type "paypal" then
    item 1 (fun email => DataTemplates.create_paypal email (get 2 ""))
  else if is_type data_type "crypto" then
    let currency := get 2 "BTC" in
    item 1 (fun address => DataTemplates.create_crypto address currency)
  else if is_type data_type "social" then
    let platform := get 2 "instagram" in
    item 1 (fun username => DataTemplates.create_social username platform)
  else if is_type data_type "youtube" then
    item 1 DataTemplates.create_youtube
  else "".

Definition total_steps : gmap string Z :=
  DataTemplates.dict
    [("location", 2); ("sms", 2); ("whatsapp", 2); ("vcard", 5); ("event", 4);
     ("paypal", 2); ("crypto", 2); ("social", 2)].

(** [total_steps.get(data_type, 1)] *)
Definition total_steps_get (data_type : option string) : Z :=
  match data_type with
  | Some d => default 1 (total_steps !! d)
  | None => 1
  end.

(** [multi_data['inputs']] *)
Definition get_inputs : M (gmap Z string) :=
  u <- get ;;
  match multi_step_data u with
  | Some d => ret (md_inputs d)
  | None => raise "inputs"
  end.

Definition handle_multi_step_input (user_text : string) : M unit :=
  lang <- get_user_lang ;;
  u <- get ;;
  let multi_data := multi_step_data u in
  let data_type := option_map md_type multi_data in
  let step := default 1 (option_map md_step multi_data) in
  (* the part of the body after the input has been stored *)
  let stored : M unit :=
    if step <? total_steps_get data_type then
      step_assign (step + 1) ;;;
      ask_for_multi_step_input
    else
      inputs <- get_inputs ;;
      let qr_data := generate_multi_step_qr_data data_type inputs in
      (if Py.truthy qr_data then generate_and_send_qr qr_data
       else reply_menu lang "❌ Ошибка генерации данных") ;;;
      pop_multi_step_data ;;;
      pop_current_data_type ;;;
      reply_menu lang (T lang "qr_ready") in
  if String.eqb user_text (T lang "skip") then
    inputs_assign step "" ;;;
    stored
  else if String.eqb user_text (T lang "cancel") then
    cancel_operation
  else
    ok <- validate_multi_step_input user_text data_type step ;;
    if negb ok then ret tt
    else
      inputs_assign step user_text ;;;
      stored.

Definition handle_crypto_selection (crypto_text : string) : M unit :=
  lang <- get_user_lang ;;
  let crypto_map : gmap string string :=
    DataTemplates.dict
      [(T lang "crypto_btc", "BTC"); (T lang "crypto_eth", "ETH");
       (T lang "crypto_usdt", "USDT")] in
  let currency := default "BTC" (crypto_map !! crypto_text) in
  inputs_assign 2 currency ;;;
  step_assign 3 ;;;
  inputs <- get_inputs ;;
  let qr_data := generate_multi_step_qr_data (Some "crypto") inputs in
  (if Py.truthy qr_data then generate_and_send_qr qr_data else ret tt) ;;;
  pop_multi_step_data ;;;
  pop_current_data_type ;;;
  reply_menu lang (T lang "qr_ready").

Definition handle_social_selection (social_text : string) : M unit :=
  lang <- get_user_lang ;;
  let social_map : gmap string string :=
    DataTemplates.dict
      [(T lang "social_instagram", "instagram"); (T lang "social_tiktok", "tiktok");
       (T lang "social_facebook", "facebook"); (T lang "social_linkedin", "linkedin");
       (T lang "social_twitter", "twitter")] in
  let platform := default "instagram" (social_map !! social_text) in
  inputs_assign 2 platform ;;;
  step_assign 3 ;;;
  inputs <- get_inputs ;;
  let qr_data := generate_multi_step_qr_data (Some "social") inputs in
  (if Py.truthy qr_data then generate_and_send_qr qr_data else ret tt) ;;;
  pop_multi_step_data ;;;
  pop_current_data_type ;;;
  reply_menu lang (T lang "qr_ready").

Definition handle_skip_input : M unit :=
  lang <- get_user_lang ;;
  handle_multi_step_input (T lang "skip").

Definition validate_input (user_input : string) (data_type : option string) : M bool :=
  lang <- get_user_lang ;;
  let error key := send (reply_text (T lang key) None) ;;; ret false in
  if is_type data_type "url" then
    if negb (ValidationUtils.validate_url user_input) then error "invalid_url"
    else ret true
  else if is_type data_type "email" then
    if negb (ValidationUtils.validate_email user_input) then error "invalid_email"
    else ret true
  else if is_type data_type "text" then
    if 500 <? Py.len user_input then error "text_too_long"
    else ret true
  else if is_type data_type "phone" then
    if negb (ValidationUtils.validate_phone user_input) then error "invalid_phone"
    else ret true
  else if is_type data_type "youtube" then
    if negb (ValidationUtils.validate_url user_input) then error "invalid_url"
    else ret true
  else ret true.

(** No template of the [try] block raises. *)
Definition generate_qr_data (data_type : option string) (user_input : string) : string :=
  if is_type data_type "url" then DataTemplates.create_url user_input
  else if is_type data_type "text" then DataTemplates.create_text user_input
  else if is_type data_type "email" then DataTemplates.create_email user_input
  else if is_type data_type "phone" then DataTemplates.create_phone user_input
  else if is_type data_type "youtube" then DataTemplates.create_youtube user_input
  else user_input.

Definition handle_single_input (user_text : string) : M unit :=
  lang <- get_user_lang ;;
  u <- get ;;
  let data_type := current_data_type u in
  ok <- validate_input user_text data_type ;;
  if negb ok then ret tt
  else
    let qr_data := generate_qr_data data_type user_text in
    if negb (Py.truthy qr_data) then
      reply_menu lang "❌ Ошибка генерации данных"
    else
      generate_and_send_qr qr_data ;;;
      pop_current_data_type ;;;
      reply_menu lang (T lang "qr_ready").

Definition handle_language_selection (language_name : string) : M unit :=
  let languages := Localization.get_available_languages loc in
  match List.find (fun '(_, name) => String.eqb name language_name) languages with
  | Some (lang_code, _) =>
      set_language lang_code ;;;
      reply_menu lang_code (T lang_code "language_changed")
  | None =>
      set_language DEFAULT_LANGUAGE ;;;
      reply_menu DEFAULT_LANGUAGE (T DEFAULT_LANGUAGE "language_changed")
  end.

Definition multi_step_types : list string :=
  ["location"; "sms"; "whatsapp"; "vcard"; "event"; "paypal"; "crypto"; "social"].

Definition handle_data_type_selection (user_text : string) : M unit :=
  lang <- get_user_lang ;;
  let data_type_map : gmap string string :=
    DataTemplates.dict
      [(T lang "data_type_url", "url"); (T lang "data_type_text", "text");
       (T lang "data_type_email", "email"); (T lang "data_type_phone", "phone");
       (T lang "data_type_wifi", "wifi"); (T lang "data_type_location", "location");
       (T lang "data_type_sms", "sms"); (T lang "data_type_whatsapp", "whatsapp");
       (T lang "data_type_vcard", "vcard"); (T lang "data_type_event", "event");
       (T lang "data_type_paypal", "paypal"); (T lang "data_type_crypto", "crypto");
       (T lang "data_type_youtube", "youtube"); (T lang "data_type_social", "social")] in
  match data_type_map !! user_text with
  | Some data_type =>
      if Py.truthy data_type then
        set_current_data_type data_type ;;;
        if String.eqb data_type "wifi" then
          set_wifi_data (DataTemplates.dict [("step", "ssid")]) ;;;
          send (reply_text (T lang "enter_wifi_ssid") (Some (create_cancel_keyboard lang)))
        else if elem data_type multi_step_types then
          set_multi_step_data {| md_type := data_type; md_step := 1; md_inputs := ∅ |} ;;;
          ask_for_multi_step_input
        else
          let prompt_key := "enter_" ++ data_type in
          send (reply_text (T lang prompt_key) (Some (create_cancel_keyboard lang)))
      else ret tt
  | None => ret tt
  end.

Definition handle_dynamic_text (user_text : string) : M unit :=
  lang <- get_user_lang ;;
  let create_qr_text := T lang "create_qr" in
  let help_text := T lang "help" in
  let language_text := T lang "language" in
  let back_text := T lang "back" in
  let cancel_text := T lang "cancel" in
  let skip_text := T lang "skip" in
  u <- get ;;
  if bool_decide (is_Some (wifi_data u)) then handle_wifi_input user_text
  else if bool_decide (is_Some (multi_step_data u)) then handle_multi_step_input user_text
  else if String.eqb user_text create_qr_text then create_qr
  else if String.eqb user_text help_text then help_command
  else if String.eqb user_text language_text then language_command
  else if elem user_text (data_type_labels lang) then handle_data_type_selection user_text
  else if String.eqb user_text back_text then show_main_menu
  else if String.eqb user_text cancel_text then cancel_operation
  else if elem user_text (List.map snd (Localization.get_available_languages loc)) then
    handle_language_selection user_text
  else if elem user_text (encryption_labels lang) then handle_wifi_encryption user_text
  else if elem user_text (crypto_labels lang) then handle_crypto_selection user_text
  else if elem user_text (social_labels lang) then handle_social_selection user_text
  else if String.eqb user_text skip_text then handle_skip_input
  else if bool_decide (is_Some (current_data_type u)) then handle_single_input user_text
  else reply_menu lang (T lang "use_buttons").

(** The updates [setup_handlers] registers a handler for: the five
    commands, and any text message that is not a command. *)
Inductive update : Type :=
| Command (name : string)
| Text (text : string).

Definition handle (upd : update) : M unit :=
  match upd with
  | Text user_text => handle_dynamic_text user_text
  | Command name =>
      if String.eqb name "start" then start
      else if String.eqb name "help" then help_command
      else if String.eqb name "language" then language_command
      else if String.eqb name "new" then new_qr
      else if String.eqb name "cancel" then cancel
      else ret tt
  end.

(** A conversation: the updates of one user, handled in order.  A handler
    that raises ends its own update only; what it changed and sent before
    remains. *)
Fixpoint run (upds : list update) (u : user_data) : user_data * list action :=
  match upds with
  | [] => (u, [])
  | upd :: upds' =>
      let '(_, u', out) := handle upd u in
      let '(u'', out') := run upds' u' in
      (u'', (out ++ out')%list)
  end.

(** The data handed to the image generator, in order. *)
Definition payloads (out : list action) : list string :=
  omap (fun a => match a with generate_qr data => Some data | _ => None end) out.

End Handlers.

End QRBot.

(** ** A catalogue to run the controller on

    One locale, English, with the labels of the menus; the keys it leaves
    out read as their bracketed names.  [vobject] and the image generator
    never raise. *)

Module Sample.

Definition en : gmap string string :=
  DataTemplates.dict
    [("language_name", "English"); ("create_qr", "Create QR"); ("help", "Help");
     ("language", "Language"); ("back", "Back"); ("cancel", "Cancel"); ("skip", "Skip");
     ("data_type_url", "URL"); ("data_type_text", "Text"); ("data_type_email", "Email");
     ("data_type_phone", "Phone"); ("data_type_wifi", "WiFi");
     ("data_type_location", "Location"); ("data_type_sms", "SMS");
     ("data_type_whatsapp", "WhatsApp"); ("data_type_vcard", "Contact");
     ("data_type_event", "Event"); ("data_type_paypal", "PayPal");
     ("data_type_crypto", "Crypto"); ("data_type_youtube", "YouTube");
     ("data_type_social", "Social");
     ("encryption_wpa", "WPA/WPA2"); ("encryption_wep", "WEP");
     ("encryption_none", "No password");
     ("crypto_btc", "Bitcoin (BTC)"); ("crypto_eth", "Ethereum (ETH)");
     ("crypto_usdt", "Tether (USDT)");
     ("social_instagram", "Instagram"); ("social_tiktok", "TikTok");
     ("social_facebook", "Facebook"); ("social_linkedin", "LinkedIn");
     ("social_twitter", "Twitter")].

Definition loc : Localization.t :=
  {| Localization.translations := DataTemplates.dict [("en", en)];
     Localization.available_languages := [("en", "English")] |}.

(** A second catalogue: English knows the key [hello], Russian is loaded
    and does not. *)
Definition two_locales : Localization.t :=
  {| Localization.translations :=
       DataTemplates.dict
         [("en", DataTemplates.dict [("hello", "Hello")]); ("ru", ∅)];
     Localization.available_languages := [("en", "en"); ("ru", "ru")] |}.

Definition serialize (card : DataTemplates.vcard) : option string :=
  Some ("BEGIN:VCARD" ++ DataTemplates.nl ++ "FN:" ++ DataTemplates.fn card
        ++ DataTemplates.nl ++ "END:VCARD").

Definition qr_error (data : string) : option string := None.

Definition handle : QRBot.update -> QRBot.M unit := QRBot.handle loc serialize qr_error.
Definition run : list QRBot.update -> QRBot.user_data -> QRBot.user_data * list QRBot.action :=
  QRBot.run loc serialize qr_error.

(** The conversation made of the given text messages, from a fresh user. *)
Definition talk (texts : list string) : QRBot.user_data * list QRBot.action :=
  run (List.map QRBot.Text texts) QRBot.empty_user_data.

(** [multi_step_data['inputs'].get(k)] *)
Definition input_at (u : QRBot.user_data) (k : Z) : option string :=
  match QRBot.multi_step_data u with
  | Some d => QRBot.md_inputs d !! k
  | None => None
  end.

(** User data in the middle of an operation. *)
Definition paypal_step_1 : QRBot.multi_step :=
  {| QRBot.md_type := "paypal"; QRBot.md_step := 1; QRBot.md_inputs := ∅ |}.

Definition paypal_session : QRBot.user_data :=
  {| QRBot.language := None; QRBot.current_data_type := Some "paypal";
     QRBot.wifi_data := None; QRBot.multi_step_data := Some paypal_step_1 |}.

Definition crypto_step_2 : QRBot.multi_step :=
  {| QRBot.md_type := "crypto"; QRBot.md_step := 2;
     QRBot.md_inputs := DataTemplates.dict [(1, "abc")] |}.

Definition crypto_session : QRBot.user_data :=
  {| QRBot.language := None; QRBot.current_data_type := Some "crypto";
     QRBot.wifi_data := None; QRBot.multi_step_data := Some crypto_step_2 |}.

Definition text_session : QRBot.user_data :=
  {| QRBot.language := None; QRBot.current_data_type := Some "text";
     QRBot.wifi_data := None; QRBot.multi_step_data := None |}.

Definition wifi_home : gmap string string :=
  DataTemplates.dict
    [("step", "final"); ("ssid", "Home"); ("encryption", "WPA");
     ("password", "secret123")].

Definition wifi_session : QRBot.user_data :=
  {| QRBot.language := None; QRBot.current_data_type := Some "wifi";
     QRBot.wifi_data := Some wifi_home; QRBot.multi_step_data := None |}.

(** A text of 501 characters. *)
Definition long_text : string := Py.str (repeat "a"%char 501).

Definition step_of (u : QRBot.user_data) : option Z :=
  option_map QRBot.md_step (QRBot.multi_step_data u).

End Sample.

(** ** The claimed reading of three operations

    Each definition below follows the words of the specification, to be
    compared with the definition taken from the source. *)

Module Claimed.

(** The phone validator as specified: an optional leading plus sign, then
    digits, spaces, hyphens and parentheses, at least 10 characters in all,
    the plus sign included. *)
Definition phone_char (c : ascii) : bool :=
  Py.is_09 c || Py.is_char " " c || Py.is_char "-" c || Py.is_char "(" c
  || Py.is_char ")" c.

Definition validate_phone (phone : string) : bool :=
  let l := Py.chars phone in
  let body :=
    match l with
    | c :: l' => if Py.is_char "+" c then l' else l
    | [] => []
    end in
  forallb phone_char body && (10 <=? length l)%nat.

(** The phone encoder as specified: digits are kept, a plus sign is kept
    only in the leading position. *)
Definition create_phone (phone : string) : string :=
  let l := Py.chars phone in
  let cleaned :=
    match l with
    | c :: l' =>
        if Py.is_char "+" c then c :: List.filter Py.isdigit l'
        else List.filter Py.isdigit l
    | [] => []
    end in
  "tel:" ++ Py.str cleaned.

(** The catalogue lookup as specified: the requested locale, then the
    default locale, then the bracketed key. *)
Definition get_text (self : Localization.t) (lang_code key : string) : string :=
  let find code :=
    match Localization.translations self !! code with
    | Some d => d !! key
    | None => None
    end in
  match find lang_code with
  | Some text => text
  | None => default ("[" ++ key ++ "]") (find DEFAULT_LANGUAGE)
  end.

End Claimed.

(** What [validate_phone] accepts, read off its pattern: after an optional
    leading plus sign, at least 10 characters of the class. *)
Definition phone_body (l : list ascii) : list ascii :=
  match l with
  | c :: l' => if Py.is_char "+" c then l' else l
  | [] => []
  end.

Definition phone_accepts_chars (l : list ascii) : bool :=
  (10 <=? length (phone_body l))%nat && forallb ValidationUtils.phone_char (phone_body l).

Definition phone_accepts (phone : string) : bool := phone_accepts_chars (Py.chars phone).

(** What [generate_and_send_qr] asks for on data that is not blank. *)
Definition sending (loc : Localization.t) (qr_error : string -> option string)
    (lang data : string) : list QRBot.action :=
  [QRBot.send_chat_action "upload_photo";
   QRBot.reply_text (QRBot.T loc lang "generating_qr") None;
   QRBot.generate_qr data;
   match qr_error data with
   | None => QRBot.reply_photo (QRBot.T loc lang "qr_ready")
   | Some e => QRBot.reply_text ("❌ Ошибка генерации QR-кода: " ++ e) None
   end;
   QRBot.delete_message].

(** The language a handler answers in. *)
Definition lang_of (u : QRBot.user_data) : string :=
  default DEFAULT_LANGUAGE (QRBot.language u).

(** The cancel label differs from the labels tested before it in
    [handle_multi_step_input] and [handle_dynamic_text]. *)
Definition cancel_label_distinct (loc : Localization.t) (lang : string) : bool :=
  negb (QRBot.elem (QRBot.T loc lang "cancel")
          ([QRBot.T loc lang "skip"; QRBot.T loc lang "create_qr";
            QRBot.T loc lang "help"; QRBot.T loc lang "language"]
           ++ QRBot.data_type_labels loc lang ++ [QRBot.T loc lang "back"])%list).

(** The user data after [text] has been stored at the current step of the
    multi-step session [d] and the step has moved on by one. *)
Definition advance (u : QRBot.user_data) (d : QRBot.multi_step) (text : string)
    : QRBot.user_data :=
  {| QRBot.language := QRBot.language u;
     QRBot.current_data_type := QRBot.current_data_type u;
     QRBot.wifi_data := QRBot.wifi_data u;
     QRBot.multi_step_data :=
       Some {| QRBot.md_type := QRBot.md_type d;
               QRBot.md_step := QRBot.md_step d + 1;
               QRBot.md_inputs := <[QRBot.md_step d := text]> (QRBot.md_inputs d) |} |}.

(** A wifi session and a multi-step session are not under way together. *)
Definition no_wifi (u : QRBot.user_data) : Prop := QRBot.wifi_data u = None.
Definition no_multi (u : QRBot.user_data) : Prop := QRBot.multi_step_data u = None.
Definition exclusive (u : QRBot.user_data) : Prop := no_wifi u \/ no_multi u.

(** The two properties a handler keeps when it assigns neither key. *)
Definition session_free (P : QRBot.user_data -> Prop) : Prop :=
  P = no_wifi \/ P = no_multi.

(** A handler that leaves [P] true of the user data when it was true. *)
Definition preserves (P : QRBot.user_data -> Prop) {A} (m : QRBot.M A) : Prop :=
  forall u, P u -> P (QRBot.state_of (m u)).

(** * Properties *)

(** ** Matching by derivatives decides the language *)

Section RegexFacts.
Import Re.

Lemma lang_Void_inv s : lang Void s -> False.
Proof. inversion 1. Qed.

Lemma lang_Eps_inv s : lang Eps s -> s = [].
Proof. inversion 1; reflexivity. Qed.

Lemma lang_Cls_inv p s : lang (Cls p) s -> exists c, s = [c] /\ p c = true.
Proof. inversion 1; subst; eauto. Qed.

Lemma lang_Cat_inv r1 r2 s :
  lang (Cat r1 r2) s -> exists s1 s2, s = (s1 ++ s2)%list /\ lang r1 s1 /\ lang r2 s2.
Proof. inversion 1; subst; eauto. Qed.

Lemma lang_Alt_inv r1 r2 s : lang (Alt r1 r2) s -> lang r1 s \/ lang r2 s.
Proof. inversion 1; subst; auto. Qed.

(** A non-empty word of a star starts with a non-empty word of the body. *)
Lemma lang_Star_cons_inv r c s :
  lang (Star r) (c :: s) ->
  exists s1 s2, s = (s1 ++ s2)%list /\ lang r (c :: s1) /\ lang (Star r) s2.
Proof.
  intros H. remember (Star r) as r' eqn:Er. remember (c :: s) as w eqn:Ew.
  revert s Ew. induction H; intros s' Ew; try discriminate.
  injection Er as ->.
  destruct s1 as [|c1 s1].
  - simpl in Ew. apply IHlang2; auto.
  - simpl in Ew. injection Ew as -> <-. eauto.
Qed.

Lemma nullable_lang r : nullable r = true <-> lang r [].
Proof.
  induction r; simpl.
  - split; [discriminate | intros H; destruct (lang_Void_inv _ H)].
  - split; [constructor | reflexivity].
  - split; [discriminate |].
    intros H. apply lang_Cls_inv in H as (c & Hc & _). discriminate.
  - rewrite andb_true_iff, IHr1, IHr2. split.
    + intros [H1 H2]. apply (lang_cat _ _ [] [] H1 H2).
    + intros H. apply lang_Cat_inv in H as (s1 & s2 & E & H1 & H2).
      symmetry in E. apply app_eq_nil in E as [-> ->]. auto.
  - rewrite orb_true_iff, IHr1, IHr2. split.
    + intros [H | H]; [apply lang_alt_l | apply lang_alt_r]; exact H.
    + apply lang_Alt_inv.
  - split; [constructor | reflexivity].
Qed.

Lemma lang_cat_smart r1 r2 s : lang (cat r1 r2) s <-> lang (Cat r1 r2) s.
Proof.
  assert (Hl : forall r, lang (Cat Eps r) s <-> lang r s).
  { intros r. split.
    - intros H. apply lang_Cat_inv in H as (s1 & s2 & -> & H1 & H2).
      apply lang_Eps_inv in H1 as ->. exact H2.
    - intros H. apply (lang_cat Eps r [] s); [constructor | exact H]. }
  assert (Hr : forall r, lang (Cat r Eps) s <-> lang r s).
  { intros r. split.
    - intros H. apply lang_Cat_inv in H as (s1 & s2 & -> & H1 & H2).
      apply lang_Eps_inv in H2 as ->. rewrite app_nil_r. exact H1.
    - intros H. rewrite <- (app_nil_r s). apply lang_cat; [exact H | constructor]. }
  assert (Hv : forall r, lang (Cat Void r) s <-> lang Void s).
  { intros r. split; intros H.
    - apply lang_Cat_inv in H as (s1 & s2 & _ & H1 & _). destruct (lang_Void_inv _ H1).
    - destruct (lang_Void_inv _ H). }
  assert (Hw : forall r, lang (Cat r Void) s <-> lang Void s).
  { intros r. split; intros H.
    - apply lang_Cat_inv in H as (s1 & s2 & _ & _ & H2). destruct (lang_Void_inv _ H2).
    - destruct (lang_Void_inv _ H). }
  destruct r1, r2; simpl;
    rewrite ?Hv, ?Hw, ?Hl, ?Hr; reflexivity.
Qed.

Lemma lang_alt_smart r1 r2 s : lang (alt r1 r2) s <-> lang (Alt r1 r2) s.
Proof.
  assert (Hv : forall r, lang (Alt Void r) s <-> lang r s).
  { intros r. split; intros H.
    - apply lang_Alt_inv in H as [H | H]; [destruct (lang_Void_inv _ H) | exact H].
    - apply lang_alt_r. exact H. }
  assert (Hw : forall r, lang (Alt r Void) s <-> lang r s).
  { intros r. split; intros H.
    - apply lang_Alt_inv in H as [H | H]; [exact H | destruct (lang_Void_inv _ H)].
    - apply lang_alt_l. exact H. }
  destruct r1, r2; simpl; rewrite ?Hv, ?Hw; reflexivity.
Qed.

Lemma deriv_lang c r : forall s, lang (deriv c r) s <-> lang r (c :: s).
Proof.
  induction r; intros s; simpl.
  - split; intros H; destruct (lang_Void_inv _ H).
  - split; intros H; [destruct (lang_Void_inv _ H) |].
    apply lang_Eps_inv in H. discriminate.
  - destruct (p c) eqn:Hp; split; intros H.
    + apply lang_Eps_inv in H as ->. constructor. exact Hp.
    + apply lang_Cls_inv in H as (c' & E & _). injection E as _ ->. constructor.
    + destruct (lang_Void_inv _ H).
    + apply lang_Cls_inv in H as (c' & E & Hc). injection E as <- _. congruence.
  - assert (Hcat : lang (Cat (deriv c r1) r2) s <->
                   exists s1 s2, s = (s1 ++ s2)%list /\ lang r1 (c :: s1) /\ lang r2 s2).
    { split.
      - intros H. apply lang_Cat_inv in H as (s1 & s2 & -> & H1 & H2).
        exists s1, s2. rewrite <- IHr1. auto.
      - intros (s1 & s2 & -> & H1 & H2). apply lang_cat; [apply IHr1; exact H1 | exact H2]. }
    destruct (nullable r1) eqn:Hn.
    + rewrite lang_alt_smart. split.
      * intros H. apply lang_Alt_inv in H as [H | H].
        -- apply lang_cat_smart, Hcat in H as (s1 & s2 & -> & H1 & H2).
           apply (lang_cat r1 r2 (c :: s1) s2 H1 H2).
        -- apply nullable_lang in Hn. apply (lang_cat r1 r2 [] (c :: s) Hn).
           apply IHr2. exact H.
      * intros H. apply lang_Cat_inv in H as (s1 & s2 & E & H1 & H2).
        destruct s1 as [|c1 s1].
        -- simpl in E. subst s2. apply lang_alt_r, IHr2. exact H2.
        -- simpl in E. injection E as <- ->.
           apply lang_alt_l, lang_cat_smart, Hcat. eauto.
    + rewrite lang_cat_smart, Hcat. split.
      * intros (s1 & s2 & -> & H1 & H2). apply (lang_cat r1 r2 (c :: s1) s2 H1 H2).
      * intros H. apply lang_Cat_inv in H as (s1 & s2 & E & H1 & H2).
        destruct s1 as [|c1 s1].
        -- apply nullable_lang in H1. congruence.
        -- simpl in E. injection E as <- ->. eauto.
  - rewrite lang_alt_smart. split.
    + intros H. apply lang_Alt_inv in H as [H | H];
        [apply lang_alt_l, IHr1 | apply lang_alt_r, IHr2]; exact H.
    + intros H. apply lang_Alt_inv in H as [H | H];
        [apply lang_alt_l, IHr1 | apply lang_alt_r, IHr2]; exact H.
  - rewrite lang_cat_smart. split.
    + intros H. apply lang_Cat_inv in H as (s1 & s2 & -> & H1 & H2).
      apply (lang_star_cons r (c :: s1) s2); [apply IHr; exact H1 | exact H2].
    + intros H. apply lang_Star_cons_inv in H as (s1 & s2 & -> & H1 & H2).
      apply lang_cat; [apply IHr; exact H1 | exact H2].
Qed.

Lemma matches_lang s : forall r, matches r s = true <-> lang r s.
Proof.
  induction s as [|c s IH]; intros r; simpl.
  - apply nullable_lang.
  - rewrite IH. apply deriv_lang.
Qed.

(** The words of a repeated class. *)
Lemma lang_Rep_Cls p n : forall s,
  lang (Rep n (Cls p)) s <-> length s = n /\ forallb p s = true.
Proof.
  induction n as [|n IH]; intros s; simpl.
  - split.
    + intros H. apply lang_Eps_inv in H as ->. auto.
    + intros [H _]. destruct s; [constructor | discriminate].
  - split.
    + intros H. apply lang_Cat_inv in H as (s1 & s2 & -> & H1 & H2).
      apply lang_Cls_inv in H1 as (c & -> & Hc). apply IH in H2 as [Hl Hf].
      simpl. rewrite Hc, Hl. auto.
    + intros [Hl Hf]. destruct s as [|c s]; [discriminate |].
      simpl in Hl, Hf. apply andb_true_iff in Hf as [Hc Hf].
      apply (lang_cat (Cls p) _ [c] s); [constructor; exact Hc |].
      apply IH. split; [congruence | exact Hf].
Qed.

Lemma lang_Star_Cls p : forall s, lang (Star (Cls p)) s <-> forallb p s = true.
Proof.
  induction s as [|c s IH].
  - split; [reflexivity | constructor].
  - split.
    + intros H. apply lang_Star_cons_inv in H as (s1 & s2 & -> & H1 & H2).
      apply lang_Cls_inv in H1 as (c' & E & Hc). injection E as <- E.
      symmetry in E. subst s1. simpl in *. rewrite Hc. apply IH. exact H2.
    + simpl. intros H. apply andb_true_iff in H as [Hc Hf].
      apply (lang_star_cons _ [c] s); [constructor; exact Hc | apply IH; exact Hf].
Qed.

Lemma lang_AtLeast_Cls p n s :
  lang (AtLeast n (Cls p)) s <-> (n <= length s)%nat /\ forallb p s = true.
Proof.
  unfold AtLeast. split.
  - intros H. apply lang_Cat_inv in H as (s1 & s2 & -> & H1 & H2).
    apply lang_Rep_Cls in H1 as [Hl Hf]. apply lang_Star_Cls in H2.
    rewrite length_app, forallb_app, Hf, H2. split; [lia | reflexivity].
  - intros [Hl Hf].
    rewrite <- (firstn_skipn n s) in Hf |- *.
    rewrite forallb_app in Hf. apply andb_true_iff in Hf as [Hf1 Hf2].
    apply lang_cat.
    + apply lang_Rep_Cls. split; [apply firstn_length_le; exact Hl | exact Hf1].
    + apply lang_Star_Cls. exact Hf2.
Qed.

End RegexFacts.

(** ** The phone validator *)

Lemma phone_pattern_lang l :
  Re.matches ValidationUtils.phone_pattern l = phone_accepts_chars l.
Proof.
  apply eq_true_iff_eq. rewrite matches_lang.
  unfold ValidationUtils.phone_pattern, phone_accepts_chars.
  rewrite andb_true_iff, Nat.leb_le. split.
  - intros H. apply lang_Cat_inv in H as (s1 & s2 & -> & H1 & H2).
    apply lang_AtLeast_Cls in H2 as [Hl Hf].
    apply lang_Alt_inv in H1 as [H1 | H1].
    + apply lang_Eps_inv in H1 as ->. simpl.
      destruct s2 as [|c s2]; [simpl in Hl; lia |].
      simpl. destruct (Py.is_char "+" c) eqn:Hc; [| split; assumption].
      apply Ascii.eqb_eq in Hc as <-. simpl in Hf. discriminate.
    + apply lang_Cls_inv in H1 as (c & -> & Hc). simpl. rewrite Hc. auto.
  - intros [Hl Hf]. destruct l as [|c l]; [simpl in Hl; lia |].
    simpl in Hl, Hf. destruct (Py.is_char "+" c) eqn:Hc.
    + apply (Re.lang_cat _ _ [c] l).
      * apply Re.lang_alt_r. constructor. exact Hc.
      * apply lang_AtLeast_Cls. auto.
    + apply (Re.lang_cat _ _ [] (c :: l)).
      * apply Re.lang_alt_l. constructor.
      * apply lang_AtLeast_Cls. auto.
Qed.

Lemma phone_accepts_newline l :
  phone_accepts_chars l = true -> phone_accepts_chars (l ++ [Re.newline]) = true.
Proof.
  unfold phone_accepts_chars. rewrite !andb_true_iff, !Nat.leb_le.
  intros [Hl Hf]. destruct l as [|c l]; [simpl in Hl; lia |].
  simpl in *. destruct (Py.is_char "+" c).
  - rewrite length_app, forallb_app, Hf. simpl. split; [lia | reflexivity].
  - simpl in *. rewrite length_app, forallb_app.
    apply andb_true_iff in Hf as [-> ->]. simpl. split; [lia | reflexivity].
Qed.

(** C2, amended.  For every input string, the phone validator accepts
    exactly the strings made of an optional leading plus sign followed by at
    least 10 characters, the plus sign not counted, each of them a digit
    0-9, a white-space character, a hyphen or a parenthesis; every other
    string is rejected. *)
Theorem validate_phone_accepts (phone : string) :
  ValidationUtils.validate_phone phone = phone_accepts phone.
Proof.
  unfold ValidationUtils.validate_phone, Re.match_dollar, phone_accepts.
  rewrite phone_pattern_lang.
  destruct (phone_accepts_chars (Py.chars phone)) eqn:Ha; [reflexivity |].
  simpl. destruct (rev (Py.chars phone)) as [|c l'] eqn:Er; [reflexivity |].
  destruct (Py.is_char Re.newline c) eqn:Hc; [| reflexivity].
  simpl. rewrite phone_pattern_lang.
  destruct (phone_accepts_chars (rev l')) eqn:Hb; [| reflexivity].
  apply phone_accepts_newline in Hb.
  apply Ascii.eqb_eq in Hc. subst c.
  assert (E : Py.chars phone = (rev l' ++ [Re.newline])%list).
  { rewrite <- (rev_involutive (Py.chars phone)), Er. reflexivity. }
  congruence.
Qed.

(** C2 as stated fails: a plus sign and nine digits are ten characters in
    all, which the claimed validator accepts and the code rejects. *)
Lemma validate_phone_counts_after_plus :
  Claimed.validate_phone "+123456789" = true /\
  ValidationUtils.validate_phone "+123456789" = false.
Proof. split; vm_compute; reflexivity. Qed.

(** ** The phone encoder *)

Lemma chars_str l : Py.chars (Py.str l) = l.
Proof. apply list_ascii_of_string_of_list_ascii. Qed.

Lemma filter_is_sublist {A} (p : A -> bool) (l : list A) : sublist (List.filter p l) l.
Proof.
  induction l as [|x l IH]; simpl.
  - constructor.
  - destruct (p x); [apply sublist_skip | apply sublist_cons]; exact IH.
Qed.

Lemma filter_forallb {A} (p : A -> bool) (l : list A) : forallb p (List.filter p l) = true.
Proof.
  induction l as [|x l IH]; simpl; [reflexivity |].
  destruct (p x) eqn:Hp; simpl; [rewrite Hp |]; exact IH.
Qed.

Lemma filter_count (p : ascii -> bool) (l : list ascii) (c : ascii) :
  count_occ ascii_dec (List.filter p l) c =
  if p c then count_occ ascii_dec l c else 0%nat.
Proof.
  induction l as [|x l IH]; simpl.
  - destruct (p c); reflexivity.
  - destruct (p x) eqn:Hx; simpl; destruct (ascii_dec x c) as [-> | Hne];
      rewrite IH; destruct (p c); congruence.
Qed.

(** C6, amended.  For every input string, the phone encoder removes all
    characters except digits and plus signs and returns [tel:] followed by
    the cleaned string; every plus sign is kept, wherever it occurs, and the
    characters kept stay in order.  In particular the input
    "+1 (234) 567-890" encodes to "tel:+1234567890", and "1+2" to "tel:1+2". *)
Theorem create_phone_keeps_every_plus :
  let keep c := Py.isdigit c || Py.is_char "+" c in
  (forall phone : string,
     exists cleaned : list ascii,
       DataTemplates.create_phone phone = "tel:" ++ Py.str cleaned /\
       sublist cleaned (Py.chars phone) /\
       forallb keep cleaned = true /\
       forall c, count_occ ascii_dec cleaned c =
                 if keep c then count_occ ascii_dec (Py.chars phone) c else 0%nat) /\
  DataTemplates.create_phone "+1 (234) 567-890" = "tel:+1234567890" /\
  DataTemplates.create_phone "1+2" = "tel:1+2".
Proof.
  intros keep. split; [| split; vm_compute; reflexivity].
  intros phone. exists (List.filter keep (Py.chars phone)).
  split; [reflexivity |]. split; [apply filter_is_sublist |].
  split; [apply filter_forallb |]. intros c. apply filter_count.
Qed.

(** C6 as stated fails: a plus sign that is not in the leading position is
    kept by the code. *)
Lemma create_phone_inner_plus_kept :
  Claimed.create_phone "1+2" = "tel:12" /\
  DataTemplates.create_phone "1+2" = "tel:1+2".
Proof. split; vm_compute; reflexivity. Qed.

(** ** The text catalogue *)

(** C7, amended.  For every locale and key, the lookup returns the
    translation of that locale when the locale is loaded and has the key;
    it falls back to the default locale only when the requested locale is
    not loaded at all; and it returns the bracketed key whenever the locale
    it consults (the requested one if loaded, else the default one) lacks
    the key or is not loaded -- so also when a loaded locale lacks a key
    that the default locale has. *)
Theorem get_text_cases (self : Localization.t) (lang key : string) :
  let translations := Localization.translations self in
  let placeholder := "[" ++ key ++ "]" in
  (forall d text, translations !! lang = Some d -> d !! key = Some text ->
     Localization.get_text self lang key = text) /\
  (forall d, translations !! lang = Some d -> d !! key = None ->
     Localization.get_text self lang key = placeholder) /\
  (forall d text, translations !! lang = None ->
     translations !! DEFAULT_LANGUAGE = Some d -> d !! key = Some text ->
     Localization.get_text self lang key = text) /\
  (forall d, translations !! lang = None ->
     translations !! DEFAULT_LANGUAGE = Some d -> d !! key = None ->
     Localization.get_text self lang key = placeholder) /\
  (translations !! lang = None -> translations !! DEFAULT_LANGUAGE = None ->
     Localization.get_text self lang key = placeholder).
Proof.
  intros translations placeholder. unfold Localization.get_text.
  fold translations. repeat split.
  - intros d text Hl Hk. rewrite bool_decide_true by (rewrite Hl; eauto).
    rewrite Hl, Hk. reflexivity.
  - intros d Hl Hk. rewrite bool_decide_true by (rewrite Hl; eauto).
    rewrite Hl, Hk. reflexivity.
  - intros d text Hl Hd Hk.
    rewrite bool_decide_false by (rewrite Hl; intros [? ?]; discriminate).
    rewrite Hd, Hk. reflexivity.
  - intros d Hl Hd Hk.
    rewrite bool_decide_false by (rewrite Hl; intros [? ?]; discriminate).
    rewrite Hd, Hk. reflexivity.
  - intros Hl Hd.
    rewrite bool_decide_false by (rewrite Hl; intros [? ?]; discriminate).
    rewrite Hd. reflexivity.
Qed.

(** A loaded locale without the key answers with the bracketed key. *)
Lemma get_text_cases_witness :
  Localization.get_text Sample.two_locales "ru" "hello" = "[hello]".
Proof.
  apply (proj1 (proj2 (get_text_cases Sample.two_locales "ru" "hello")) ∅);
    vm_compute; reflexivity.
Defined.

(** C7 as stated fails: the key is missing in the requested locale and
    present in the default one, and the code does not fall back. *)
Lemma get_text_no_fallback_per_key :
  Claimed.get_text Sample.two_locales "ru" "hello" = "Hello" /\
  Localization.get_text Sample.two_locales "ru" "hello" = "[hello]".
Proof. split; vm_compute; reflexivity. Qed.

(** ** The controller *)

(** *** Laws of the handler monad *)

Lemma after_nil {A} (x : QRBot.outcome A * QRBot.user_data * list QRBot.action) :
  QRBot.after [] x = x.
Proof. destruct x as [[r u] out]. reflexivity. Qed.

Lemma after_after {A} out out'
    (x : QRBot.outcome A * QRBot.user_data * list QRBot.action) :
  QRBot.after out (QRBot.after out' x) = QRBot.after (out ++ out') x.
Proof. destruct x as [[r u] o]. unfold QRBot.after. simpl. rewrite app_assoc. reflexivity. Qed.

Lemma after_triple {A} out (r : QRBot.outcome A) u out' :
  QRBot.after out (r, u, out') = (r, u, (out ++ out')%list).
Proof. reflexivity. Qed.

Lemma bind_run {A B} (m : QRBot.M A) (k : A -> QRBot.M B) u a u' out :
  m u = (QRBot.Return a, u', out) ->
  QRBot.bind m k u = QRBot.after out (k a u').
Proof.
  intros E. unfold QRBot.bind. rewrite E.
  destruct (k a u') as [[r u''] out']. reflexivity.
Qed.

Lemma bind_get {A} (k : QRBot.user_data -> QRBot.M A) u :
  QRBot.bind QRBot.get k u = k u u.
Proof. rewrite (bind_run _ _ u u u []) by reflexivity. apply after_nil. Qed.

Lemma bind_ret {A B} (a : A) (k : A -> QRBot.M B) u :
  QRBot.bind (QRBot.ret a) k u = k a u.
Proof. rewrite (bind_run _ _ u a u []) by reflexivity. apply after_nil. Qed.

Lemma bind_modify {A} f (k : unit -> QRBot.M A) u :
  QRBot.bind (QRBot.modify f) k u = k tt (f u).
Proof. rewrite (bind_run _ _ u tt (f u) []) by reflexivity. apply after_nil. Qed.

Lemma bind_send {A} a (k : unit -> QRBot.M A) u :
  QRBot.bind (QRBot.send a) k u = QRBot.after [a] (k tt u).
Proof. apply bind_run. reflexivity. Qed.

Lemma bind_raise {A B} key (k : A -> QRBot.M B) u :
  QRBot.bind (QRBot.raise key) k u = (QRBot.KeyError key, u, []).
Proof. reflexivity. Qed.

Lemma bind_get_user_lang {A} (k : string -> QRBot.M A) u :
  QRBot.bind QRBot.get_user_lang k u = k (lang_of u) u.
Proof.
  rewrite (bind_run _ _ u (lang_of u) u []) by reflexivity. apply after_nil.
Qed.

Lemma bind_if {A B} (b : bool) (m1 m2 : QRBot.M A) (k : A -> QRBot.M B) u :
  QRBot.bind (if b then m1 else m2) k u
  = if b then QRBot.bind m1 k u else QRBot.bind m2 k u.
Proof. destruct b; reflexivity. Qed.

Lemma bind_assoc {A B C} (m : QRBot.M A) (k : A -> QRBot.M B) (k' : B -> QRBot.M C) u :
  QRBot.bind (QRBot.bind m k) k' u = QRBot.bind m (fun a => QRBot.bind (k a) k') u.
Proof.
  unfold QRBot.bind. destruct (m u) as [[[a | key] u1] o1]; [| reflexivity].
  destruct (k a u1) as [[[b | key] u2] o2]; [| reflexivity].
  destruct (k' b u2) as [[r u3] o3]. rewrite app_assoc. reflexivity.
Qed.

Lemma run_end (m : QRBot.M unit) u :
  m u = QRBot.bind m QRBot.ret u.
Proof.
  unfold QRBot.bind, QRBot.ret. destruct (m u) as [[[[] | key] u1] o1]; [| reflexivity].
  rewrite app_nil_r. reflexivity.
Qed.

Lemma sent_of_after {A} out (x : QRBot.outcome A * QRBot.user_data * list QRBot.action) :
  QRBot.sent_of (QRBot.after out x) = (out ++ QRBot.sent_of x)%list.
Proof. reflexivity. Qed.

Lemma state_of_after {A} out (x : QRBot.outcome A * QRBot.user_data * list QRBot.action) :
  QRBot.state_of (QRBot.after out x) = QRBot.state_of x.
Proof. reflexivity. Qed.

Ltac unfold_m :=
  unfold QRBot.reply_menu,
    QRBot.pop_current_data_type, QRBot.pop_wifi_data, QRBot.pop_multi_step_data,
    QRBot.set_multi_step_data, QRBot.set_wifi_data, QRBot.set_current_data_type,
    QRBot.set_language in *.

(** One pass of the laws over a run whose head is known. *)
Ltac step_m :=
  repeat first
    [ rewrite bind_assoc
    | rewrite bind_get_user_lang
    | rewrite bind_get
    | rewrite bind_ret
    | rewrite bind_modify
    | rewrite bind_send
    | rewrite bind_raise
    | rewrite after_after
    | rewrite after_triple ];
  cbv beta iota.

Lemma lstrip_nil l : Py.lstrip l = [] -> forallb Py.isspace l = true.
Proof.
  induction l as [|c l IH]; simpl; [reflexivity |].
  destruct (Py.isspace c); [exact IH | discriminate].
Qed.

Lemma str_nil l : Py.str l = "" -> l = [].
Proof. destruct l; [reflexivity | discriminate]. Qed.

(** A string that starts with a character other than white space is not
    blank. *)
Lemma not_blank_head c s : Py.isspace c = false -> QRBot.blank (String c s) = false.
Proof.
  intros Hc. unfold QRBot.blank, Py.truthy, Py.strip. simpl. rewrite Hc.
  match goal with
  | |- context [String.eqb ?a ?b] => destruct (String.eqb_spec a b) as [E | E]
  end; [| reflexivity].
  apply str_nil in E. apply (f_equal (@rev ascii)) in E.
  rewrite rev_involutive in E. simpl in E. apply lstrip_nil in E.
  rewrite forallb_app in E. simpl in E. rewrite Hc, andb_false_r in E. discriminate.
Qed.

Lemma blank_truthy data : QRBot.blank data = false -> Py.truthy data = true.
Proof. unfold QRBot.blank. destruct (Py.truthy data); [reflexivity | discriminate]. Qed.

Lemma create_wifi_not_blank ssid password encryption :
  QRBot.blank (DataTemplates.create_wifi ssid password encryption) = false.
Proof.
  unfold DataTemplates.create_wifi.
  destruct (_ || _); simpl; apply not_blank_head; reflexivity.
Qed.

Lemma payloads_app out out' :
  QRBot.payloads (out ++ out') = (QRBot.payloads out ++ QRBot.payloads out')%list.
Proof. apply omap_app. Qed.

Section Controller.

Variable loc : Localization.t.
Variable vobject_serialize : DataTemplates.vcard -> option string.
Variable qr_error : string -> option string.

Local Abbreviation T := (QRBot.T loc).
Local Abbreviation generate_and_send_qr := (QRBot.generate_and_send_qr loc qr_error).
Local Abbreviation finalize_wifi_qr := (QRBot.finalize_wifi_qr loc qr_error).
Local Abbreviation handle_single_input := (QRBot.handle_single_input loc qr_error).
Local Abbreviation validate_input := (QRBot.validate_input loc).
Local Abbreviation handle_dynamic_text :=
  (QRBot.handle_dynamic_text loc vobject_serialize qr_error).
Local Abbreviation handle_multi_step_input :=
  (QRBot.handle_multi_step_input loc vobject_serialize qr_error).
Local Abbreviation validate_multi_step_input := (QRBot.validate_multi_step_input loc).
Local Abbreviation main_menu := (QRBot.create_main_menu_keyboard loc).

Lemma payloads_sending lang data :
  QRBot.payloads (sending loc qr_error lang data) = [data].
Proof. unfold sending, QRBot.payloads. simpl. destruct (qr_error data); reflexivity. Qed.

Lemma generate_and_send_qr_run data u :
  QRBot.blank data = false ->
  generate_and_send_qr data u =
  (QRBot.Return tt, u, sending loc qr_error (lang_of u) data).
Proof.
  intros Hb. unfold QRBot.generate_and_send_qr.
  rewrite bind_get_user_lang. rewrite Hb.
  rewrite run_end. step_m.
  unfold sending. destruct (qr_error data); step_m; reflexivity.
Qed.

Lemma bind_generate_and_send_qr {A} data (k : unit -> QRBot.M A) u :
  QRBot.blank data = false ->
  QRBot.bind (generate_and_send_qr data) k u
  = QRBot.after (sending loc qr_error (lang_of u) data) (k tt u).
Proof. intros Hb. apply bind_run. apply generate_and_send_qr_run. exact Hb. Qed.

Lemma finalize_wifi_qr_run u d ssid :
  QRBot.wifi_data u = Some d -> d !! "ssid" = Some ssid ->
  finalize_wifi_qr u
  = (QRBot.Return tt,
     {| QRBot.language := QRBot.language u;
        QRBot.current_data_type := None;
        QRBot.wifi_data := None;
        QRBot.multi_step_data := QRBot.multi_step_data u |},
     (sending loc qr_error (lang_of u)
        (DataTemplates.create_wifi ssid (default "" (d !! "password"))
           (default "WPA" (d !! "encryption")))
      ++ [QRBot.reply_text (T (lang_of u) "qr_ready") (Some (main_menu (lang_of u)))])%list).
Proof.
  intros Hw Hs.
  pose proof (create_wifi_not_blank ssid (default "" (d !! "password"))
                (default "WPA" (d !! "encryption"))) as Hb.
  unfold QRBot.finalize_wifi_qr.
  rewrite bind_get, Hw. step_m. rewrite Hs. cbv beta iota.
  rewrite (blank_truthy _ Hb). cbn [negb].
  rewrite (bind_generate_and_send_qr _ _ _ Hb).
  unfold_m. rewrite run_end. step_m. reflexivity.
Qed.

Lemma wifi_assign_run {A} key value (k : unit -> QRBot.M A) u d :
  QRBot.wifi_data u = Some d ->
  QRBot.bind (QRBot.wifi_assign key value) k u
  = k tt {| QRBot.language := QRBot.language u;
            QRBot.current_data_type := QRBot.current_data_type u;
            QRBot.wifi_data := Some (<[key := value]> d);
            QRBot.multi_step_data := QRBot.multi_step_data u |}.
Proof.
  intros Hw. unfold QRBot.wifi_assign.
  rewrite bind_assoc, bind_get, Hw. unfold_m. rewrite bind_modify. reflexivity.
Qed.

(** The last entry of a dictionary display is the one found under its key. *)
Lemma dict_last {V} (l : list (string * V)) key value :
  DataTemplates.dict (l ++ [(key, value)]) !! key = Some value.
Proof.
  unfold DataTemplates.dict. rewrite rev_app_distr. simpl rev. simpl app.
  rewrite list_to_map_cons. apply lookup_insert_eq.
Qed.

(** C5.  The encoder gives the password-free form whenever the encryption
    is [nopass] or the password is empty, and the form with the encryption
    and the password otherwise; so do the two examples of the
    specification.  A wifi session is completed by [finalize_wifi_qr],
    which hands the generator exactly that encoding of the stored SSID,
    the stored password (empty when absent) and the stored encryption, and
    removes the session; and [handle_wifi_encryption] on the label of "no
    password" completes it with the password-free form whatever password
    the session holds. *)
Theorem create_wifi_payload :
  (forall ssid password encryption,
     encryption = "nopass" \/ password = "" ->
     DataTemplates.create_wifi ssid password encryption
     = "WIFI:T:nopass;S:" ++ ssid ++ ";;") /\
  (forall ssid password encryption,
     encryption <> "nopass" -> password <> "" ->
     DataTemplates.create_wifi ssid password encryption
     = "WIFI:T:" ++ encryption ++ ";S:" ++ ssid ++ ";P:" ++ password ++ ";;") /\
  DataTemplates.create_wifi "Home" "secret123" "WPA" = "WIFI:T:WPA;S:Home;P:secret123;;" /\
  (forall password,
     DataTemplates.create_wifi "Home" password "nopass" = "WIFI:T:nopass;S:Home;;") /\
  (forall u d ssid,
     QRBot.wifi_data u = Some d -> d !! "ssid" = Some ssid ->
     let r := finalize_wifi_qr u in
     QRBot.payloads (QRBot.sent_of r)
     = [DataTemplates.create_wifi ssid
          (default "" (d !! "password")) (default "WPA" (d !! "encryption"))] /\
     QRBot.wifi_data (QRBot.state_of r) = None /\
     QRBot.current_data_type (QRBot.state_of r) = None) /\
  (forall u d ssid,
     QRBot.wifi_data u = Some d -> d !! "ssid" = Some ssid ->
     QRBot.payloads
       (QRBot.sent_of
          (QRBot.handle_wifi_encryption loc qr_error (T (lang_of u) "encryption_none") u))
     = ["WIFI:T:nopass;S:" ++ ssid ++ ";;"]).
Proof.
  split; [| split; [| split; [| split; [| split]]]].
  - intros ssid password encryption [-> | ->]; unfold DataTemplates.create_wifi.
    + reflexivity.
    + rewrite orb_true_r. reflexivity.
  - intros ssid password encryption He Hp. unfold DataTemplates.create_wifi.
    destruct (String.eqb_spec encryption "nopass") as [E | _]; [contradiction |].
    destruct password; [contradiction | reflexivity].
  - reflexivity.
  - intros password. reflexivity.
  - intros u d ssid Hw Hs r. subst r.
    rewrite (finalize_wifi_qr_run u d ssid Hw Hs).
    unfold QRBot.sent_of, QRBot.state_of. cbn [fst snd].
    rewrite payloads_app, payloads_sending. auto.
  - intros u d ssid Hw Hs. unfold QRBot.handle_wifi_encryption.
    rewrite bind_get_user_lang.
    change [(T (lang_of u) "encryption_wpa", "WPA"); (T (lang_of u) "encryption_wep", "WEP");
            (T (lang_of u) "encryption_none", "nopass")]
      with ([(T (lang_of u) "encryption_wpa", "WPA"); (T (lang_of u) "encryption_wep", "WEP")]
            ++ [(T (lang_of u) "encryption_none", "nopass")])%list.
    rewrite dict_last. cbn [default id].
    rewrite (wifi_assign_run _ _ _ _ d Hw).
    change (String.eqb "nopass" "nopass") with true. cbv iota.
    set (d1 := <["encryption" := "nopass"]> d).
    set (d2 := <["step" := "final"]> d1).
    assert (Hs2 : d2 !! "ssid" = Some ssid).
    { subst d2 d1. rewrite !lookup_insert_ne by (intros E; discriminate E). exact Hs. }
    assert (He2 : d2 !! "encryption" = Some "nopass").
    { subst d2 d1. rewrite lookup_insert_ne by (intros E; discriminate E).
      apply lookup_insert_eq. }
    match goal with
    | |- context [QRBot.bind (QRBot.wifi_assign _ _) _ ?u1] =>
        rewrite (wifi_assign_run _ _ _ u1 d1 eq_refl)
    end.
    match goal with
    | |- context [finalize_wifi_qr ?u2] =>
        rewrite (finalize_wifi_qr_run u2 d2 ssid eq_refl Hs2)
    end.
    unfold QRBot.sent_of. cbn [snd].
    rewrite payloads_app, payloads_sending, He2. reflexivity.
Qed.

(** C10.  With the data type [text] selected, an input of more than 500
    characters is answered by the [text_too_long] message alone: nothing is
    handed to the generator and the user data are unchanged.  An input of
    at most 500 characters passes the validation silently and is encoded as
    itself, and that is what the generator receives unless the input is
    blank. *)
Theorem text_length_limit (u : QRBot.user_data) (user_text : string) :
  QRBot.current_data_type u = Some "text" ->
  (500 < Py.len user_text ->
   handle_single_input user_text u
   = (QRBot.Return tt, u, [QRBot.reply_text (T (lang_of u) "text_too_long") None]) /\
   QRBot.payloads (QRBot.sent_of (handle_single_input user_text u)) = []) /\
  (Py.len user_text <= 500 ->
   validate_input user_text (Some "text") u = (QRBot.Return true, u, []) /\
   QRBot.generate_qr_data (Some "text") user_text = user_text /\
   (QRBot.blank user_text = false ->
    QRBot.payloads (QRBot.sent_of (handle_single_input user_text u)) = [user_text])).
Proof.
  intros Hd. split.
  - intros Hlen. apply Z.ltb_lt in Hlen.
    assert (E : handle_single_input user_text u
      = (QRBot.Return tt, u, [QRBot.reply_text (T (lang_of u) "text_too_long") None])).
    { unfold QRBot.handle_single_input, QRBot.validate_input.
      rewrite bind_get_user_lang, bind_get, Hd. simpl QRBot.is_type. cbv beta iota.
      rewrite Hlen. step_m. reflexivity. }
    rewrite E. split; reflexivity.
  - intros Hlen. apply Z.ltb_ge in Hlen.
    split; [| split].
    + unfold QRBot.validate_input. rewrite bind_get_user_lang.
      simpl QRBot.is_type. cbv beta iota. rewrite Hlen. reflexivity.
    + reflexivity.
    + intros Hb.
      assert (E : handle_single_input user_text u
        = (QRBot.Return tt,
           {| QRBot.language := QRBot.language u;
              QRBot.current_data_type := None;
              QRBot.wifi_data := QRBot.wifi_data u;
              QRBot.multi_step_data := QRBot.multi_step_data u |},
           (sending loc qr_error (lang_of u) user_text
            ++ [QRBot.reply_text (T (lang_of u) "qr_ready")
                  (Some (main_menu (lang_of u)))])%list)).
      { unfold QRBot.handle_single_input, QRBot.validate_input.
        rewrite bind_get_user_lang, bind_get, Hd. simpl QRBot.is_type. cbv beta iota.
        step_m. rewrite Hlen. step_m. cbn [negb].
        change (QRBot.generate_qr_data (Some "text") user_text) with user_text.
        rewrite (blank_truthy _ Hb). cbn [negb].
        rewrite (bind_generate_and_send_qr _ _ _ Hb).
        unfold_m. rewrite run_end. step_m. reflexivity. }
      rewrite E. unfold QRBot.sent_of. cbn [fst snd].
      rewrite payloads_app, payloads_sending. reflexivity.
Qed.

(** *** Handlers that only answer *)

Lemma ask_for_multi_step_input_pure u :
  exists out, QRBot.ask_for_multi_step_input loc u = (QRBot.Return tt, u, out).
Proof.
  unfold QRBot.ask_for_multi_step_input.
  rewrite bind_get_user_lang, bind_get.
  repeat match goal with
         | |- context [match ?x with _ => _ end] => destruct x
         end; unfold QRBot.send, QRBot.ret; eauto.
Qed.

Lemma validate_multi_step_input_pure user_input data_type step u :
  exists ok out,
    validate_multi_step_input user_input data_type step u = (QRBot.Return ok, u, out).
Proof.
  unfold QRBot.validate_multi_step_input.
  rewrite bind_get_user_lang.
  destruct (QRBot.lookup2 _ _ _) as [[validation_type error_message]|];
    [| unfold QRBot.ret; eauto].
  repeat match goal with
         | |- context [if ?b then _ else _] => destruct b
         end;
    try (rewrite bind_send; rewrite after_triple); unfold QRBot.ret; eauto.
Qed.

(** *** Dispatch during a session *)

Lemma dispatch_multi_step user_text u d :
  QRBot.wifi_data u = None -> QRBot.multi_step_data u = Some d ->
  handle_dynamic_text user_text u = handle_multi_step_input user_text u.
Proof.
  intros Hw Hm. unfold QRBot.handle_dynamic_text.
  rewrite bind_get_user_lang, bind_get, Hw, Hm. reflexivity.
Qed.

Lemma dispatch_wifi user_text u w :
  QRBot.wifi_data u = Some w ->
  handle_dynamic_text user_text u = QRBot.handle_wifi_input loc qr_error user_text u.
Proof.
  intros Hw. unfold QRBot.handle_dynamic_text.
  rewrite bind_get_user_lang, bind_get, Hw. reflexivity.
Qed.

Lemma inputs_assign_run {A} step value (k : unit -> QRBot.M A) u d :
  QRBot.multi_step_data u = Some d ->
  QRBot.bind (QRBot.inputs_assign step value) k u
  = k tt {| QRBot.language := QRBot.language u;
            QRBot.current_data_type := QRBot.current_data_type u;
            QRBot.wifi_data := QRBot.wifi_data u;
            QRBot.multi_step_data :=
              Some {| QRBot.md_type := QRBot.md_type d;
                      QRBot.md_step := QRBot.md_step d;
                      QRBot.md_inputs := <[step := value]> (QRBot.md_inputs d) |} |}.
Proof.
  intros Hm. unfold QRBot.inputs_assign.
  rewrite bind_assoc, bind_get, Hm. unfold_m. rewrite bind_modify. reflexivity.
Qed.



(** *** Cancelling *)

Lemma cancel_operation_run u :
  QRBot.cancel_operation loc u
  = (QRBot.Return tt, QRBot.idle (QRBot.language u),
     [QRBot.reply_text (T (lang_of u) "operation_cancelled")
        (Some (main_menu (lang_of u)))]).
Proof.
  unfold QRBot.cancel_operation. rewrite bind_get_user_lang. unfold_m.
  rewrite !bind_modify. reflexivity.
Qed.

Lemma cancel_label_distinct_inv lang :
  cancel_label_distinct loc lang = true ->
  String.eqb (T lang "cancel") (T lang "skip") = false /\
  String.eqb (T lang "cancel") (T lang "create_qr") = false /\
  String.eqb (T lang "cancel") (T lang "help") = false /\
  String.eqb (T lang "cancel") (T lang "language") = false /\
  QRBot.elem (T lang "cancel") (QRBot.data_type_labels loc lang) = false /\
  String.eqb (T lang "cancel") (T lang "back") = false.
Proof.
  unfold cancel_label_distinct, QRBot.elem. intros H.
  apply negb_true_iff in H.
  cbn [app existsb] in H.
  repeat match type of H with
         | (_ || _) = false => apply orb_false_iff in H as [? H]
         end.
  rewrite existsb_app in H. apply orb_false_iff in H as [Hx Hy].
  cbn [existsb] in Hy. rewrite orb_false_r in Hy. auto 10.
Qed.

(** C8.  Whatever the session under way -- wifi, multi-step or
    single-input, at any step -- the cancel label removes the collected
    fields, the step and the data-type selection in the one handler call,
    and what remains is the user data of a user with no operation under
    way, so that every later update is handled as from there.  The
    language chosen is not part of the session and is kept.  (A wifi and a
    multi-step session are never under way together, see
    [fresh_user_exclusive], and the cancel label is taken to differ from
    the other labels of the menus.) *)
Theorem cancel_clears_session (u : QRBot.user_data) :
  exclusive u ->
  cancel_label_distinct loc (lang_of u) = true ->
  let r := handle_dynamic_text (T (lang_of u) "cancel") u in
  r = (QRBot.Return tt, QRBot.idle (QRBot.language u),
       [QRBot.reply_text (T (lang_of u) "operation_cancelled")
          (Some (main_menu (lang_of u)))]) /\
  forall upds,
    QRBot.run loc vobject_serialize qr_error upds (QRBot.state_of r)
    = QRBot.run loc vobject_serialize qr_error upds (QRBot.idle (QRBot.language u)).
Proof.
  intros Hinv Hd r. unfold exclusive, no_wifi, no_multi in Hinv.
  assert (E : r = (QRBot.Return tt, QRBot.idle (QRBot.language u),
                   [QRBot.reply_text (T (lang_of u) "operation_cancelled")
                      (Some (main_menu (lang_of u)))])).
  { subst r.
    apply cancel_label_distinct_inv in Hd as (Hs & Hq & Hh & Hl & Ht & Hb).
    destruct (QRBot.wifi_data u) as [w|] eqn:Hw.
    - destruct Hinv as [Hinv | Hm]; [discriminate |].
      rewrite (dispatch_wifi _ _ w Hw). unfold QRBot.handle_wifi_input.
      rewrite bind_get, Hw, bind_get_user_lang, String.eqb_refl. unfold_m.
      rewrite !bind_modify. unfold QRBot.send, QRBot.idle. cbn. rewrite Hm. reflexivity.
    - destruct (QRBot.multi_step_data u) as [d|] eqn:Hm.
      + rewrite (dispatch_multi_step _ _ d Hw Hm). unfold QRBot.handle_multi_step_input.
        rewrite bind_get_user_lang, bind_get, Hs, String.eqb_refl.
        apply cancel_operation_run.
      + unfold QRBot.handle_dynamic_text.
        rewrite bind_get_user_lang, bind_get, Hw, Hm, Hq, Hh, Hl, Ht, Hb,
          String.eqb_refl.
        apply cancel_operation_run. }
  split; [exact E |]. intros upds. rewrite E. reflexivity.
Qed.

(** *** The skip and choice steps *)

(** The skip label is stored as an empty field at any step that is not the
    last one, whatever the rule of that step. *)
Lemma skip_stores_empty u d :
  QRBot.wifi_data u = None -> QRBot.multi_step_data u = Some d ->
  QRBot.md_step d < QRBot.total_steps_get (Some (QRBot.md_type d)) ->
  QRBot.state_of (handle_dynamic_text (T (lang_of u) "skip") u) = advance u d "".
Proof.
  intros Hw Hm Hlt. rewrite (dispatch_multi_step _ _ d Hw Hm).
  unfold QRBot.handle_multi_step_input.
  rewrite bind_get_user_lang, bind_get, Hm, String.eqb_refl.
  cbn [option_map default id].
  rewrite (inputs_assign_run _ _ _ _ d Hm).
  apply Z.ltb_lt in Hlt. rewrite Hlt.
  unfold QRBot.step_assign. rewrite bind_assoc, bind_get. cbn [QRBot.multi_step_data].
  unfold_m. rewrite bind_modify. cbn.
  destruct (ask_for_multi_step_input_pure (advance u d "")) as [out E].
  unfold advance in E. cbn in E. rewrite E. reflexivity.
Qed.

End Controller.

(** ** A wifi and a multi-step session exclude each other *)

Section Preservation.

Variable P : QRBot.user_data -> Prop.

Lemma preserves_ret {A} (a : A) : preserves P (QRBot.ret a).
Proof. intros u H. exact H. Qed.

Lemma preserves_get : preserves P QRBot.get.
Proof. intros u H. exact H. Qed.

Lemma preserves_send a : preserves P (QRBot.send a).
Proof. intros u H. exact H. Qed.

Lemma preserves_raise {A} key : preserves P (@QRBot.raise A key).
Proof. intros u H. exact H. Qed.

Lemma preserves_modify f : (forall u, P u -> P (f u)) -> preserves P (QRBot.modify f).
Proof. intros Hf u H. apply Hf. exact H. Qed.

Lemma preserves_bind {A B} (m : QRBot.M A) (k : A -> QRBot.M B) :
  preserves P m -> (forall a, preserves P (k a)) -> preserves P (QRBot.bind m k).
Proof.
  intros Hm Hk u H. specialize (Hm u H). unfold QRBot.bind, QRBot.state_of in *.
  destruct (m u) as [[[a | key] u1] o1]; [| exact Hm].
  specialize (Hk a u1 Hm). unfold QRBot.state_of in Hk.
  destruct (k a u1) as [[r u2] o2]. exact Hk.
Qed.

End Preservation.

Lemma session_free_no_wifi : session_free no_wifi.
Proof. left. reflexivity. Qed.

Lemma session_free_no_multi : session_free no_multi.
Proof. right. reflexivity. Qed.

Create HintDb keeps.
#[local] Hint Resolve session_free_no_wifi session_free_no_multi : keeps.

Ltac preserves_step :=
  first
    [ solve [eauto with keeps]
    | apply preserves_ret
    | apply preserves_get
    | apply preserves_send
    | apply preserves_raise
    | apply preserves_bind; [| intros ?]
    | apply preserves_modify; intros [? ? ? ?];
      try match goal with H : session_free _ |- _ => destruct H; subst end;
      unfold no_wifi, no_multi; cbn; congruence
    | progress cbv beta zeta
    | match goal with
      | |- preserves _ (if ?b then _ else _) => destruct b
      | |- preserves _ (match ?x with _ => _ end) => destruct x
      end ].

Ltac preserves_auto := unfold_m; repeat preserves_step.

Section Exclusive.

Variable loc : Localization.t.
Variable vobject_serialize : DataTemplates.vcard -> option string.
Variable qr_error : string -> option string.

Lemma keeps_get_user_lang P : preserves P QRBot.get_user_lang.
Proof. unfold QRBot.get_user_lang. preserves_auto. Qed.
#[local] Hint Resolve keeps_get_user_lang : keeps.

Lemma keeps_generate_and_send_qr P data :
  preserves P (QRBot.generate_and_send_qr loc qr_error data).
Proof. unfold QRBot.generate_and_send_qr. preserves_auto. Qed.
#[local] Hint Resolve keeps_generate_and_send_qr : keeps.

Lemma keeps_start P : preserves P (QRBot.start loc).
Proof. unfold QRBot.start. preserves_auto. Qed.

Lemma keeps_show_main_menu P : preserves P (QRBot.show_main_menu loc).
Proof. unfold QRBot.show_main_menu. preserves_auto. Qed.

Lemma keeps_create_qr P : session_free P -> preserves P (QRBot.create_qr loc).
Proof. intros HP. unfold QRBot.create_qr. preserves_auto. Qed.

Lemma keeps_help_command P : preserves P (QRBot.help_command loc).
Proof. unfold QRBot.help_command. preserves_auto. Qed.

Lemma keeps_language_command P : preserves P (QRBot.language_command loc).
Proof. unfold QRBot.language_command. preserves_auto. Qed.

Lemma keeps_cancel_operation P : session_free P -> preserves P (QRBot.cancel_operation loc).
Proof. intros HP. unfold QRBot.cancel_operation. preserves_auto. Qed.

#[local] Hint Resolve keeps_start keeps_show_main_menu keeps_create_qr
  keeps_help_command keeps_language_command keeps_cancel_operation : keeps.

Lemma keeps_cancel P : session_free P -> preserves P (QRBot.cancel loc).
Proof. intros HP. unfold QRBot.cancel. preserves_auto. Qed.

Lemma keeps_finalize_wifi_qr P :
  session_free P -> preserves P (QRBot.finalize_wifi_qr loc qr_error).
Proof. intros HP. unfold QRBot.finalize_wifi_qr. preserves_auto. Qed.

Lemma keeps_ask_for_multi_step_input P :
  preserves P (QRBot.ask_for_multi_step_input loc).
Proof. unfold QRBot.ask_for_multi_step_input. preserves_auto. Qed.

Lemma keeps_validate_multi_step_input P user_input data_type step :
  preserves P (QRBot.validate_multi_step_input loc user_input data_type step).
Proof. unfold QRBot.validate_multi_step_input. preserves_auto. Qed.

Lemma keeps_validate_input P user_input data_type :
  preserves P (QRBot.validate_input loc user_input data_type).
Proof. unfold QRBot.validate_input. preserves_auto. Qed.

#[local] Hint Resolve keeps_cancel keeps_finalize_wifi_qr keeps_ask_for_multi_step_input
  keeps_validate_multi_step_input keeps_validate_input : keeps.

Lemma keeps_handle_single_input P user_text :
  session_free P -> preserves P (QRBot.handle_single_input loc qr_error user_text).
Proof. intros HP. unfold QRBot.handle_single_input. preserves_auto. Qed.

Lemma keeps_handle_language_selection P language_name :
  session_free P -> preserves P (QRBot.handle_language_selection loc language_name).
Proof. intros HP. unfold QRBot.handle_language_selection. preserves_auto. Qed.

#[local] Hint Resolve keeps_handle_single_input keeps_handle_language_selection : keeps.

(** Without a wifi session, an assignment to its dictionary is lost. *)
Lemma no_wifi_wifi_assign key value : preserves no_wifi (QRBot.wifi_assign key value).
Proof.
  intros u H. unfold QRBot.wifi_assign. rewrite bind_get. rewrite H. exact H.
Qed.

Lemma no_multi_wifi_assign key value : preserves no_multi (QRBot.wifi_assign key value).
Proof. unfold QRBot.wifi_assign. preserves_auto. Qed.

Lemma no_wifi_inputs_assign step value : preserves no_wifi (QRBot.inputs_assign step value).
Proof. unfold QRBot.inputs_assign. preserves_auto. Qed.

Lemma no_wifi_step_assign step : preserves no_wifi (QRBot.step_assign step).
Proof. unfold QRBot.step_assign. preserves_auto. Qed.

Lemma keeps_get_inputs P : preserves P QRBot.get_inputs.
Proof. unfold QRBot.get_inputs. preserves_auto. Qed.

#[local] Hint Resolve no_wifi_wifi_assign no_multi_wifi_assign no_wifi_inputs_assign
  no_wifi_step_assign keeps_get_inputs : keeps.

Lemma no_wifi_handle_wifi_encryption encryption_text :
  preserves no_wifi (QRBot.handle_wifi_encryption loc qr_error encryption_text).
Proof. unfold QRBot.handle_wifi_encryption. preserves_auto. Qed.

Lemma no_multi_handle_wifi_input user_text :
  preserves no_multi (QRBot.handle_wifi_input loc qr_error user_text).
Proof. unfold QRBot.handle_wifi_input. preserves_auto. Qed.

Lemma no_wifi_handle_multi_step_input user_text :
  preserves no_wifi
    (QRBot.handle_multi_step_input loc vobject_serialize qr_error user_text).
Proof. unfold QRBot.handle_multi_step_input. preserves_auto. Qed.

#[local] Hint Resolve no_wifi_handle_wifi_encryption no_multi_handle_wifi_input
  no_wifi_handle_multi_step_input : keeps.

Lemma no_wifi_handle_crypto_selection crypto_text :
  preserves no_wifi
    (QRBot.handle_crypto_selection loc vobject_serialize qr_error crypto_text).
Proof. unfold QRBot.handle_crypto_selection. preserves_auto. Qed.

Lemma no_wifi_handle_social_selection social_text :
  preserves no_wifi
    (QRBot.handle_social_selection loc vobject_serialize qr_error social_text).
Proof. unfold QRBot.handle_social_selection. preserves_auto. Qed.

Lemma no_wifi_handle_skip_input :
  preserves no_wifi (QRBot.handle_skip_input loc vobject_serialize qr_error).
Proof. unfold QRBot.handle_skip_input. preserves_auto. Qed.

#[local] Hint Resolve no_wifi_handle_crypto_selection no_wifi_handle_social_selection
  no_wifi_handle_skip_input : keeps.

(** Selecting a data type starts one session, of one kind. *)
Lemma handle_data_type_selection_exclusive user_text u :
  no_wifi u -> no_multi u ->
  exclusive (QRBot.state_of (QRBot.handle_data_type_selection loc user_text u)).
Proof.
  intros Hw Hm. unfold QRBot.handle_data_type_selection.
  rewrite bind_get_user_lang.
  destruct (_ !! user_text) as [data_type|]; [| left; exact Hw].
  destruct (Py.truthy data_type); [| left; exact Hw].
  unfold_m. rewrite bind_modify.
  destruct (String.eqb data_type "wifi").
  - right. rewrite bind_modify. exact Hm.
  - left. destruct (QRBot.elem data_type QRBot.multi_step_types).
    + rewrite bind_modify.
      apply keeps_ask_for_multi_step_input. exact Hw.
    + exact Hw.
Qed.

Lemma handle_dynamic_text_exclusive user_text u :
  exclusive u ->
  exclusive (QRBot.state_of
               (QRBot.handle_dynamic_text loc vobject_serialize qr_error user_text u)).
Proof.
  intros Hx.
  destruct (QRBot.wifi_data u) as [w|] eqn:Hw.
  - destruct Hx as [Hx | Hx]; [unfold no_wifi in Hx; congruence |].
    rewrite (dispatch_wifi _ _ _ _ _ w Hw). right.
    apply no_multi_handle_wifi_input. exact Hx.
  - destruct (QRBot.multi_step_data u) as [d|] eqn:Hm.
    + rewrite (dispatch_multi_step _ _ _ _ _ d Hw Hm). left.
      apply no_wifi_handle_multi_step_input. exact Hw.
    + unfold QRBot.handle_dynamic_text.
      rewrite bind_get_user_lang, bind_get, Hw, Hm.
      change (bool_decide (is_Some (@None (gmap string string)))) with false.
      change (bool_decide (is_Some (@None QRBot.multi_step))) with false.
      cbv iota.
      repeat match goal with
             | |- exclusive (QRBot.state_of ((if ?b then _ else _) u)) =>
                 destruct b;
                 [ first [ apply handle_data_type_selection_exclusive; assumption
                         | left;
                           match goal with
                           | |- no_wifi (QRBot.state_of (?m u)) =>
                               let Hp := fresh in
                               assert (Hp : preserves no_wifi m) by eauto with keeps;
                               apply Hp; exact Hw
                           end ] |]
             end.
      left. exact Hw.
Qed.

(** Every update keeps the two sessions apart, and so does every
    conversation from a fresh user. *)
Lemma handle_exclusive upd u :
  exclusive u ->
  exclusive (QRBot.state_of (QRBot.handle loc vobject_serialize qr_error upd u)).
Proof.
  intros Hx. destruct upd as [name | user_text];
    [| apply handle_dynamic_text_exclusive; exact Hx].
  unfold QRBot.handle.
  assert (Hk : forall P, session_free P ->
                 preserves P
                   (if String.eqb name "start" then QRBot.start loc
                    else if String.eqb name "help" then QRBot.help_command loc
                    else if String.eqb name "language" then QRBot.language_command loc
                    else if String.eqb name "new" then QRBot.new_qr loc
                    else if String.eqb name "cancel" then QRBot.cancel loc
                    else QRBot.ret tt)).
  { intros P HP. unfold QRBot.new_qr. preserves_auto. }
  destruct Hx as [Hx | Hx]; [left | right]; apply Hk; auto with keeps.
Qed.

Lemma run_exclusive upds : forall u,
  exclusive u ->
  exclusive (fst (QRBot.run loc vobject_serialize qr_error upds u)).
Proof.
  induction upds as [|upd upds IH]; intros u Hx; simpl; [exact Hx |].
  pose proof (handle_exclusive upd u Hx) as H.
  unfold QRBot.state_of in H.
  destruct (QRBot.handle loc vobject_serialize qr_error upd u) as [[r u'] out].
  specialize (IH u' H).
  destruct (QRBot.run loc vobject_serialize qr_error upds u') as [u'' out'].
  exact IH.
Qed.

End Exclusive.

(** The user data reached by any conversation of a fresh user hold at most
    one of the two sessions. *)
Lemma fresh_user_exclusive loc vobject_serialize qr_error upds :
  exclusive (fst (QRBot.run loc vobject_serialize qr_error upds QRBot.empty_user_data)).
Proof. apply run_exclusive. left. reflexivity. Qed.

(** ** The controller on the sample catalogue *)

(** A stored wifi session with SSID, encryption and password is completed
    with the payload of the specification. *)
Lemma create_wifi_payload_witness :
  QRBot.payloads
    (QRBot.sent_of (QRBot.finalize_wifi_qr Sample.loc Sample.qr_error Sample.wifi_session))
  = ["WIFI:T:WPA;S:Home;P:secret123;;"].
Proof.
  pose proof (create_wifi_payload Sample.loc Sample.qr_error) as (_ & _ & _ & _ & H & _).
  destruct (H Sample.wifi_session Sample.wifi_home "Home") as (Hp & _ & _);
    [reflexivity | vm_compute; reflexivity |].
  exact Hp.
Defined.

(** A short text is handed to the generator as it is; a text of 501
    characters is answered by the error message alone. *)
Lemma text_length_limit_witness :
  QRBot.payloads
    (QRBot.sent_of (QRBot.handle_single_input Sample.loc Sample.qr_error "hello"
                      Sample.text_session)) = ["hello"] /\
  QRBot.handle_single_input Sample.loc Sample.qr_error Sample.long_text Sample.text_session
  = (QRBot.Return tt, Sample.text_session, [QRBot.reply_text "[text_too_long]" None]).
Proof.
  split.
  - destruct (text_length_limit Sample.loc Sample.qr_error Sample.text_session "hello")
      as [_ H]; [reflexivity |].
    destruct H as (_ & _ & H); [vm_compute; discriminate |].
    apply H. vm_compute. reflexivity.
  - destruct (text_length_limit Sample.loc Sample.qr_error Sample.text_session
                Sample.long_text) as [H _]; [reflexivity |].
    destruct H as [H _]; [vm_compute; reflexivity |].
    exact H.
Defined.


(** Cancelling at the first step of [paypal]. *)
Lemma cancel_clears_session_witness :
  Sample.handle (QRBot.Text "Cancel") Sample.paypal_session
  = (QRBot.Return tt, QRBot.idle None,
     [QRBot.reply_text "[operation_cancelled]"
        (Some (QRBot.ReplyKeyboardMarkup [["Create QR"]; ["Help"]; ["Language"]]))]).
Proof.
  destruct (cancel_clears_session Sample.loc Sample.serialize Sample.qr_error
              Sample.paypal_session) as [H _].
  - left. reflexivity.
  - vm_compute. reflexivity.
  - exact H.
Defined.

(** ** The coordinate validator and the location flow *)

(** C9, amended.  The coordinate validator accepts exactly the strings
    that [float] reads as a finite number from -180 to 180, with no tighter
    range for a latitude.  So the latitude "200" is rejected -- the user
    stays at the first step with the error message -- while "150" is
    accepted as a latitude and gives "geo:150,56.78" with the longitude
    "56.78"; latitude "12.34" and longitude "56.78" give "geo:12.34,56.78". *)
Theorem validate_coordinate_range :
  (forall coord,
     ValidationUtils.validate_coordinate coord = true <->
     exists q, PyFloat.float coord = Some (PyFloat.Fin q) /\
               (inject_Z (-180) <= q)%Q /\ (q <= inject_Z 180)%Q) /\
  ValidationUtils.validate_coordinate "200" = false /\
  (let r := Sample.talk ["Location"; "200"] in
   Sample.step_of (fst r) = Some 1 /\ Sample.input_at (fst r) 1 = None /\
   last (snd r) = Some (QRBot.reply_text "[invalid_coordinate]" None)) /\
  QRBot.payloads (snd (Sample.talk ["Location"; "150"; "56.78"])) = ["geo:150,56.78"] /\
  QRBot.payloads (snd (Sample.talk ["Location"; "12.34"; "56.78"])) = ["geo:12.34,56.78"].
Proof.
  split; [| repeat split; vm_compute; reflexivity].
  intros coord. unfold ValidationUtils.validate_coordinate.
  destruct (PyFloat.float coord) as [[| neg | q]|]; simpl.
  - split; [discriminate | intros (q & E & _); discriminate].
  - split; [| intros (q & E & _); discriminate].
    destruct neg; discriminate.
  - rewrite andb_true_iff, !Qle_bool_iff. split.
    + intros [H1 H2]. exists q. auto.
    + intros (q' & E & H1 & H2). injection E as <-. auto.
  - split; [discriminate | intros (q & E & _); discriminate].
Qed.

(** C9 as stated fails: the latitude "200" is rejected, and the text sent
    after it is taken for the latitude, so that no payload is made. *)
Lemma coordinate_200_rejected :
  ValidationUtils.validate_coordinate "200" = false /\
  QRBot.payloads (snd (Sample.talk ["Location"; "200"; "56.78"])) = [] /\
  Sample.input_at (fst (Sample.talk ["Location"; "200"; "56.78"])) 1 = Some "56.78".
Proof. repeat split; vm_compute; reflexivity. Qed.

(** ** Two defects of the dispatch *)

(** C1.  A text sent at the choice step of a crypto or social session is
    handled by [handle_multi_step_input], which stores it as it is: the
    payload is built from the text, not from the default code, and a label
    of the keyboard is not mapped to its code either.  The selection
    handler, had it been called on the same user data, stores the
    default; from [handle_dynamic_text] it is reached only without a
    session, where it raises. *)
Theorem choice_text_is_stored_raw :
  QRBot.payloads (snd (Sample.talk ["Crypto"; "abc"; "DOGE"])) = ["doge:abc"] /\
  QRBot.payloads (snd (Sample.talk ["Social"; "bob"; "VK"])) = ["https://VK.com/bob"] /\
  QRBot.payloads (snd (Sample.talk ["Crypto"; "abc"; "Bitcoin (BTC)"]))
  = ["bitcoin (btc):abc"] /\
  fst (Sample.talk ["Crypto"; "abc"]) = Sample.crypto_session /\
  QRBot.payloads
    (QRBot.sent_of
       (QRBot.handle_crypto_selection Sample.loc Sample.serialize Sample.qr_error
          "DOGE" Sample.crypto_session)) = ["bitcoin:abc"] /\
  Sample.handle (QRBot.Text "Bitcoin (BTC)") QRBot.empty_user_data
  = (QRBot.KeyError "inputs", QRBot.empty_user_data, []).
Proof. repeat split; vm_compute; reflexivity. Qed.

(** The same early return of the dispatcher leaves a wifi session at its
    choice step: the label of an encryption is neither stored nor
    answered. *)
Lemma wifi_choice_is_ignored :
  let u := fst (Sample.talk ["WiFi"; "Home"]) in
  QRBot.wifi_data u = Some (DataTemplates.dict [("step", "encryption"); ("ssid", "Home")]) /\
  Sample.handle (QRBot.Text "WPA/WPA2") u = (QRBot.Return tt, u, []).
Proof. split; vm_compute; reflexivity. Qed.

(** C3.  The skip label is stored as an empty field and the step moves on
    at steps whose rule is [required], [coordinate] or [date]: the
    latitude of a location, the name of a contact, the date of an event. *)
Theorem skip_is_taken_at_required_steps :
  (let u := fst (Sample.talk ["Location"; "Skip"]) in
   Sample.input_at u 1 = Some "" /\ Sample.step_of u = Some 2) /\
  (let u := fst (Sample.talk ["Contact"; "Skip"]) in
   Sample.input_at u 1 = Some "" /\ Sample.step_of u = Some 2) /\
  (let u := fst (Sample.talk ["Event"; "Party"; "Skip"]) in
   Sample.input_at u 2 = Some "" /\ Sample.step_of u = Some 3).
Proof. repeat split; vm_compute; reflexivity. Qed.
